(** * 443d: security headers, virtual-host routing and endpoint start-up

    A shallow embedding of [443d.go]: the configuration structs, the
    package-level variables ([config], [tlsKeyPair], [hstsHeader],
    [hpkpHeader]) threaded as an explicit state, the three request
    handlers and the three endpoint goroutines of [main].

    The Go packages the program calls into (go-glob, crypto/tls,
    crypto/x509, crypto/sha256, encoding/base64) are not part of the
    program; they are the fields of the class [Externals], over which
    every definition and theorem is generic. *)

From Stdlib Require Import ZArith Ascii String.
From stdpp Require Import gmap strings list fin_maps pretty.

Local Open Scope Z_scope.
Local Open Scope string_scope.
Local Open Scope list_scope.

(** ** Go values *)

(** [[]byte] *)
Definition bytes := list Byte.byte.

(** A Go [(T, error)] pair: exactly one of the two is meaningful. *)
Inductive result (A : Type) : Type :=
| Ok (a : A)
| Err (e : string).
Arguments Ok {A} a.
Arguments Err {A} e.

(** The double-quote character, escaped with a backslash in the Go format
    strings. *)
Definition dquote : string := String (Ascii.ascii_of_nat 34) EmptyString.

(** [fmt.Sprintf] with the verb [%d] on a Go [int]: an optional minus sign
    and the decimal digits, no padding. *)
Definition Sprintf_d (n : Z) : string := pretty n.

(** ** net/http *)

Module http.

(** [http.Header] is a [map[string][]string].  The two keys the program
    uses are already in canonical MIME form, so canonicalisation of
    the key is the identity on them and is left out. *)
Definition Header_Values (h : gmap string (list string)) (key : string)
  : list string :=
  default [] (h !! key).

(** [h.Add(key, value)]: appends to the values already under [key]. *)
Definition Header_Add (key value : string) (h : gmap string (list string))
  : gmap string (list string) :=
  <[key := Header_Values h key ++ [value]]> h.

(** [h.Set(key, value)]: replaces the values under [key]. *)
Definition Header_Set (key value : string) (h : gmap string (list string))
  : gmap string (list string) :=
  <[key := [value]]> h.

(** The fields of [*http.Request] the program reads or writes. *)
Record Request : Type := mkRequest {
  Method : string;
  Host : string;
  RequestURI : string
}.

(** [r.Host = host] *)
Definition setHost (host : string) (r : Request) : Request :=
  {| Method := Method r; Host := host; RequestURI := RequestURI r |}.

(** What an [http.ResponseWriter] has received so far: the header map
    behind [w.Header()], the status code once [WriteHeader] has been
    called, and the body chunks written, oldest first. *)
Record ResponseWriter : Type := mkResponseWriter {
  Header : gmap string (list string);
  status : option Z;
  body : list string
}.

(** The writer as the server hands it to a handler. *)
Definition fresh : ResponseWriter :=
  {| Header := ∅; status := None; body := [] |}.

(** [w.Header().Add(key, value)] *)
Definition AddHeader (key value : string) (w : ResponseWriter)
  : ResponseWriter :=
  {| Header := Header_Add key value (Header w);
     status := status w; body := body w |}.

(** [w.Header().Set(key, value)] *)
Definition SetHeader (key value : string) (w : ResponseWriter)
  : ResponseWriter :=
  {| Header := Header_Set key value (Header w);
     status := status w; body := body w |}.

(** [w.WriteHeader(code)]: only the first call takes effect. *)
Definition WriteHeader (code : Z) (w : ResponseWriter) : ResponseWriter :=
  match status w with
  | Some _ => w
  | None => {| Header := Header w; status := Some code; body := body w |}
  end.

(** [w.Write(chunk)]: sends status 200 first when none was written. *)
Definition Write (chunk : string) (w : ResponseWriter) : ResponseWriter :=
  let w := WriteHeader 200 w in
  {| Header := Header w; status := status w; body := body w ++ [chunk] |}.

(** [http.Handler]: [ServeHTTP(w, r)] as a transformer of the writer. *)
Definition Handler : Type := ResponseWriter → Request → ResponseWriter.

Definition StatusMovedPermanently : Z := 301.

End http.

(** ** crypto/x509 and crypto/tls *)

Module x509.

(** The one field of [x509.Certificate] the program reads. *)
Record Certificate : Type := mkCertificate {
  RawSubjectPublicKeyInfo : bytes
}.

End x509.

Module tls.

(** [tls.Certificate].  [Chain] is the Go field [Certificate], the DER
    encodings of the chain; the private key is never read by the
    program and is left out. *)
Record Certificate : Type := mkCertificate {
  Chain : list bytes;
  Leaf : option x509.Certificate
}.

(** The zero value of the struct. *)
Definition zero : Certificate := {| Chain := []; Leaf := None |}.

(** crypto/tls keeps the chain leaf first: [X509KeyPair] matches the
    private key against element 0, the end-entity certificate. *)
Definition leafDER (c : Certificate) : option bytes := head (Chain c).

End tls.

(** ** The libraries behind the program *)

Class Externals : Type := {
  (** [glob.Glob(pattern, subj)] of github.com/ryanuber/go-glob *)
  glob_Glob : string → string → bool;
  (** [tls.LoadX509KeyPair(certFile, keyFile)] *)
  tls_LoadX509KeyPair : string → string → result tls.Certificate;
  (** [x509.ParseCertificate(asn1Data)] *)
  x509_ParseCertificate : bytes → result x509.Certificate;
  (** [sha256.Sum256(data)] *)
  sha256_Sum256 : bytes → bytes;
  (** [base64.StdEncoding.EncodeToString(src)] *)
  base64_EncodeToString : bytes → string;
  (** the short HTML note [http.Redirect] writes after the status line *)
  http_redirectNote : string → Z → string
}.

(** ** Configuration *)

Module Hsts.
Record t : Type := mk {
  Seconds : Z;
  Subdomains : bool
}.
End Hsts.

Module Hpkp.
Record t : Type := mk {
  Seconds : Z;
  Subdomains : bool;
  BackupKeys : list string
}.
End Hpkp.

Module Tls.
Record t : Type := mk {
  Listen : string;
  Cert : string;
  Key : string;
  Ssh : string;
  Hsts : Hsts.t;
  Hpkp : Hpkp.t
}.
End Tls.

Module Http.
Record t : Type := mk { Listen : string }.
End Http.

Module Redirector.
Record t : Type := mk { Listen : string }.
End Redirector.

(** Modelled from the spec: the struct [HttpBackend] is declared in a file
    of the repository that is not at hand.  The spec's data model gives a
    virtual-host entry as an ordered set of hostname glob patterns and an
    opaque request-handling capability; [httpHandler] reads exactly these
    two fields. *)
Record HttpBackend : Type := mkHttpBackend {
  Hostnames : list string;
  Handler : http.Handler
}.

Module Config.
Record t : Type := mk {
  Tls : Tls.t;
  Http : Http.t;
  Redirector : Redirector.t;
  Hosts : list HttpBackend;
  DefaultHost : string
}.
End Config.

(** ** Package-level variables *)

(** [config], [tlsKeyPair], [hstsHeader] and [hpkpHeader], together with
    the lines the program has sent through [log.Printf], oldest first. *)
Record State : Type := mkState {
  config : Config.t;
  tlsKeyPair : tls.Certificate;
  hstsHeader : string;
  hpkpHeader : string;
  logged : list string
}.

(** The variables after [readConfig]: the configuration as read, every
    other variable at its zero value. *)
Definition initial (c : Config.t) : State :=
  {| config := c; tlsKeyPair := tls.zero; hstsHeader := "";
     hpkpHeader := ""; logged := [] |}.

Definition set_DefaultHost (host : string) (s : State) : State :=
  let c := config s in
  {| config := Config.mk (Config.Tls c) (Config.Http c) (Config.Redirector c)
                         (Config.Hosts c) host;
     tlsKeyPair := tlsKeyPair s; hstsHeader := hstsHeader s;
     hpkpHeader := hpkpHeader s; logged := logged s |}.

Definition set_tlsKeyPair (kp : tls.Certificate) (s : State) : State :=
  {| config := config s; tlsKeyPair := kp; hstsHeader := hstsHeader s;
     hpkpHeader := hpkpHeader s; logged := logged s |}.

Definition set_hstsHeader (v : string) (s : State) : State :=
  {| config := config s; tlsKeyPair := tlsKeyPair s; hstsHeader := v;
     hpkpHeader := hpkpHeader s; logged := logged s |}.

Definition set_hpkpHeader (v : string) (s : State) : State :=
  {| config := config s; tlsKeyPair := tlsKeyPair s;
     hstsHeader := hstsHeader s; hpkpHeader := v; logged := logged s |}.

(** [log.Printf(line)] *)
Definition log_Printf (line : string) (s : State) : State :=
  {| config := config s; tlsKeyPair := tlsKeyPair s;
     hstsHeader := hstsHeader s; hpkpHeader := hpkpHeader s;
     logged := logged s ++ [line] |}.

(** ** Outcomes of start-up code *)

(** A start-up function runs to its end, or stops the process through
    [log.Fatalf], or panics at run time. *)
Inductive run (A : Type) : Type :=
| Done (a : A)
| Fatal (msg : string)
| Panic (msg : string).
Arguments Done {A} a.
Arguments Fatal {A} msg.
Arguments Panic {A} msg.

Definition run_bind {A B : Type} (m : run A) (k : A → run B) : run B :=
  match m with
  | Done a => k a
  | Fatal msg => Fatal msg
  | Panic msg => Panic msg
  end.

Notation "x ←' m ; k" := (run_bind m (fun x => k))
  (at level 20, m at level 100, k at level 200, only parsing).

(** [value, err = call; if err != nil { log.Fatalf(prefix + err) }] *)
Definition orFatal {A : Type} (prefix : string) (r : result A) : run A :=
  match r with
  | Ok a => Done a
  | Err e => Fatal (prefix +:+ e +:+ " :-(")
  end.

(** [xs[i]] for a Go [int] index: a run-time panic outside the slice. *)
Definition index {A : Type} (xs : list A) (i : Z) : run A :=
  if bool_decide (i < 0) then Panic "index out of range"
  else match xs !! Z.to_nat i with
       | Some x => Done x
       | None => Panic "index out of range"
       end.

Definition newline : string := String (Ascii.ascii_of_nat 10) EmptyString.

(** One lower-case hexadecimal digit, as [strconv.AppendInt] in base 16
    writes it. *)
Definition hexDigit (n : nat) : ascii :=
  Ascii.ascii_of_nat (if (n <? 10)%nat then 48 + n else 87 + n)%nat.

(** net/http's [hexEscapeNonASCII]: every byte of the string from 0x80
    upwards becomes a percent sign followed by its two hexadecimal
    digits; every other byte is kept. *)
Fixpoint hexEscapeNonASCII (s : string) : string :=
  match s with
  | EmptyString => EmptyString
  | String c rest =>
      let n := Ascii.nat_of_ascii c in
      if (128 <=? n)%nat then
        String (Ascii.ascii_of_nat 37)
          (String (hexDigit (n / 16))
             (String (hexDigit (n mod 16)) (hexEscapeNonASCII rest)))
      else String c (hexEscapeNonASCII rest)
  end.


Section Program.

Context `{Externals}.

(** ** [processConfig] *)

(** Lines 167-169. *)
Definition processDefaultHost (s : State) : State :=
  if bool_decide (Config.DefaultHost (config s) = "") then
    set_DefaultHost "localhost" s
  else s.

(** Lines 180-185: the HSTS value, left alone when the duration is 0. *)
Definition processHsts (s : State) : State :=
  let hsts := Tls.Hsts (Config.Tls (config s)) in
  if bool_decide (Hsts.Seconds hsts ≠ 0) then
    let s := set_hstsHeader ("max-age=" +:+ Sprintf_d (Hsts.Seconds hsts)) s in
    if Hsts.Subdomains hsts then
      set_hstsHeader (hstsHeader s +:+ "; includeSubdomains") s
    else s
  else s.

(** Lines 186-199: the HPKP value, left alone when the duration is 0.
    [leaf] is the certificate [tlsKeyPair.Leaf] points to, stored by line
    176 just before.  The loop over [BackupKeys] appends one clause per
    key, in order. *)
Definition processHpkp (leaf : x509.Certificate) (s : State) : State :=
  let hpkp := Tls.Hpkp (Config.Tls (config s)) in
  if bool_decide (Hpkp.Seconds hpkp ≠ 0) then
    let s :=
      if bool_decide (Z.of_nat (length (Hpkp.BackupKeys hpkp)) < 1) then
        log_Printf ("You should add a backup key to HPKP backup_keys!"
                    +:+ newline) s
      else s in
    let hash := sha256_Sum256 (x509.RawSubjectPublicKeyInfo leaf) in
    let s :=
      set_hpkpHeader ("pin-sha256=" +:+ dquote
                      +:+ base64_EncodeToString hash +:+ dquote) s in
    let s :=
      fold_left
        (fun s k =>
           set_hpkpHeader (hpkpHeader s +:+
                           ("; pin-sha256=" +:+ dquote +:+ k +:+ dquote)) s)
        (Hpkp.BackupKeys hpkp) s in
    let s :=
      set_hpkpHeader (hpkpHeader s +:+
                      ("; max-age=" +:+ Sprintf_d (Hpkp.Seconds hpkp))) s in
    if Hpkp.Subdomains hpkp then
      set_hpkpHeader (hpkpHeader s +:+ "; includeSubdomains") s
    else s
  else s.

Definition processConfig (s : State) : run State :=
  let s := processDefaultHost s in
  let tlsc := Config.Tls (config s) in
  if bool_decide (Tls.Cert tlsc ≠ "") && bool_decide (Tls.Key tlsc ≠ "") then
    kp ←' orFatal "Error reading TLS key/cert: "
            (tls_LoadX509KeyPair (Tls.Cert tlsc) (Tls.Key tlsc));
    let s := set_tlsKeyPair kp s in
    der ←' index (tls.Chain (tlsKeyPair s))
             (Z.of_nat (length (tls.Chain (tlsKeyPair s))) - 1);
    leaf ←' orFatal "Error parsing TLS cert: " (x509_ParseCertificate der);
    let s :=
      set_tlsKeyPair
        {| tls.Chain := tls.Chain (tlsKeyPair s); tls.Leaf := Some leaf |} s in
    let s := processHsts s in
    let s := processHpkp leaf s in
    Done s
  else Done s.

(** ** Request handlers *)

(** The inner loop of [httpHandler], lines 62-68: [Some] is the writer
    after the [return] of line 66, [None] means the loop ran out. *)
Fixpoint hostnames_loop (hostnames : list string) (handler : http.Handler)
         (w : http.ResponseWriter) (r : http.Request)
  : option http.ResponseWriter :=
  match hostnames with
  | [] => None
  | hostn :: rest =>
      if glob_Glob hostn (http.Host r) then Some (handler w r)
      else hostnames_loop rest handler w r
  end.

(** The outer loop, lines 60-69. *)
Fixpoint hosts_loop (hosts : list HttpBackend)
         (w : http.ResponseWriter) (r : http.Request)
  : option http.ResponseWriter :=
  match hosts with
  | [] => None
  | hostcnf :: rest =>
      match hostnames_loop (Hostnames hostcnf) (Handler hostcnf) w r with
      | Some w' => Some w'
      | None => hosts_loop rest w r
      end
  end.

(** The request after lines 57-59. *)
Definition withDefaultHost (s : State) (r : http.Request) : http.Request :=
  if bool_decide (http.Host r = "") then
    http.setHost (Config.DefaultHost (config s)) r
  else r.

Definition httpHandler (s : State) : http.Handler :=
  fun w r =>
    let r := withDefaultHost s r in
    match hosts_loop (Config.Hosts (config s)) w r with
    | Some w' => w'
    | None => w
    end.

(** [http.Redirect(w, r, url, code)] for a [url] that begins with a
    scheme, as the one [redirHandler] builds does, so that the library's
    treatment of relative targets never applies.  The library sets the
    [Location] header to the URL with its non-ASCII bytes escaped; when
    the writer had no [Content-Type] key it sets one for a GET or HEAD
    request; it writes the status; and for a GET request on a writer that
    had no [Content-Type] key it writes a short HTML note as the body. *)
Definition http_Redirect (w : http.ResponseWriter) (r : http.Request)
           (url : string) (code : Z) : http.ResponseWriter :=
  let hadCT := bool_decide (is_Some (http.Header w !! "Content-Type")) in
  let w := http.SetHeader "Location" (hexEscapeNonASCII url) w in
  let w :=
    if negb hadCT && (bool_decide (http.Method r = "GET")
                      || bool_decide (http.Method r = "HEAD"))
    then http.SetHeader "Content-Type" "text/html; charset=utf-8" w
    else w in
  let w := http.WriteHeader code w in
  if negb hadCT && bool_decide (http.Method r = "GET") then
    http.Write (http_redirectNote url code +:+ newline) w
  else w.

Definition redirHandler : http.Handler :=
  fun w r =>
    http_Redirect w r ("https://" +:+ http.Host r +:+ http.RequestURI r)
                  http.StatusMovedPermanently.

(** The closure of lines 113-121. *)
Definition secHandler (s : State) : http.Handler :=
  fun w r =>
    let tlsc := Config.Tls (config s) in
    let w :=
      if bool_decide (Hsts.Seconds (Tls.Hsts tlsc) ≠ 0) then
        http.AddHeader "Strict-Transport-Security" (hstsHeader s) w
      else w in
    let w :=
      if bool_decide (Hpkp.Seconds (Tls.Hpkp tlsc) ≠ 0) then
        http.AddHeader "Public-Key-Pins" (hpkpHeader s) w
      else w in
    httpHandler s w r.

(** ** [main] *)

(** The listener a server is given: the keep-alive wrapper of the two
    plain endpoints, or the SSH demultiplexer under a TLS listener
    holding the server's certificates. *)
Inductive Listener : Type :=
| KeepAliveListener
| TlsDemuxListener (ssh : string) (certificates : list tls.Certificate).

(** What an endpoint goroutine does: it logs a line and returns, or it
    binds its address ([listen], fatal when the bind fails) and serves
    with a handler. *)
Inductive Task : Type :=
| Return (line : string)
| Serve (name addr : string) (handler : http.Handler) (l : Listener).

(** [true] when the goroutine returns without binding or serving. *)
Definition skipped (t : Task) : bool :=
  match t with
  | Return _ => true
  | Serve _ _ _ _ => false
  end.

(** Lines 81-91. *)
Definition redirectorTask (s : State) : Task :=
  let addr := Redirector.Listen (Config.Redirector (config s)) in
  if bool_decide (addr = "") then
    Return ("No listen address for the Redirector server " +:+ newline)
  else Serve "Redirector server" addr redirHandler KeepAliveListener.

(** Lines 92-102. *)
Definition httpTask (s : State) : Task :=
  let addr := Http.Listen (Config.Http (config s)) in
  if bool_decide (addr = "") then
    Return ("No listen address for the HTTP server " +:+ newline)
  else Serve "HTTP server" addr (httpHandler s) KeepAliveListener.

(** Lines 103-130.  The HTTP/2 set-up of line 123 changes neither the
    handler nor the certificates and is left out. *)
Definition tlsTask (s : State) : Task :=
  let tlsc := Config.Tls (config s) in
  let addr := Tls.Listen tlsc in
  if bool_decide (addr = "") then
    Return ("No listen address for the TLS server " +:+ newline)
  else if bool_decide (Tls.Cert tlsc = "") && bool_decide (Tls.Key tlsc = "")
  then Return ("No keypair for the TLS server " +:+ newline)
  else Serve "TLS server" addr (secHandler s)
             (TlsDemuxListener (Tls.Ssh tlsc) [tlsKeyPair s]).

(** [main] after [readConfig]: the configuration is processed, then the
    three goroutines are started, each on the processed variables.  The
    wait on the error channel that ends the process is left out. *)
Definition main (s : State) : run (list Task) :=
  s ←' processConfig s;
  Done [redirectorTask s; httpTask s; tlsTask s].

End Program.

(** ** The header formats in the words of the specification *)

(** One [pin-sha256] clause. *)
Definition pinClause (value : string) : string :=
  "pin-sha256=" +:+ dquote +:+ value +:+ dquote.

(** The clauses of the Public-Key-Pins value, in order: the primary pin,
    one pin per backup key, the duration, and the subdomain marker when
    the flag is set. *)
Definition hpkpClauses (digest : string) (backupKeys : list string)
           (seconds : Z) (subdomains : bool) : list string :=
  pinClause digest :: (pinClause <$> backupKeys)
    ++ ["max-age=" +:+ Sprintf_d seconds]
    ++ (if subdomains then ["includeSubdomains"] else []).

(** The clauses joined with a semicolon and a space. *)
Definition hpkpValue (digest : string) (backupKeys : list string)
           (seconds : Z) (subdomains : bool) : string :=
  String.concat "; " (hpkpClauses digest backupKeys seconds subdomains).

(** The Strict-Transport-Security value. *)
Definition hstsValue (seconds : Z) (subdomains : bool) : string :=
  "max-age=" +:+ Sprintf_d seconds
  +:+ (if subdomains then "; includeSubdomains" else "").

(** An entry one of whose hostname patterns glob-matches [host]. *)
Definition matches `{Externals} (hostcnf : HttpBackend) (host : string) : bool :=
  existsb (fun hostn => glob_Glob hostn host) (Hostnames hostcnf).

(** A backend leaves the values under [key] as it found them. *)
Definition preserves (key : string) (h : http.Handler) : Prop :=
  ∀ w r, http.Header_Values (http.Header (h w r)) key
         = http.Header_Values (http.Header w) key.

(** ** A small installation

    Stand-ins for the libraries and a configuration, on which the
    statements below are exercised. *)

Module Sample.

(** A glob that knows the lone star and literal patterns. *)
Definition glob (pattern subj : string) : bool :=
  bool_decide (pattern = "*") || bool_decide (pattern = subj).

Definition leafDER : bytes := [Byte.x01].
Definition caDER : bytes := [Byte.x02].

(** [chain.pem] holds the end-entity certificate followed by its issuer,
    [cert.pem] the end-entity certificate alone. *)
Definition load (certFile keyFile : string) : result tls.Certificate :=
  if bool_decide (certFile = "chain.pem") then
    Ok {| tls.Chain := [leafDER; caDER]; tls.Leaf := None |}
  else if bool_decide (certFile = "cert.pem") then
    Ok {| tls.Chain := [leafDER]; tls.Leaf := None |}
  else Err "open: no such file or directory".

Definition parse (der : bytes) : result x509.Certificate :=
  Ok {| x509.RawSubjectPublicKeyInfo := der |}.

Definition sum256 (data : bytes) : bytes := data.

Definition encode (src : bytes) : string :=
  match src with
  | [Byte.x01] => "ABC="
  | [Byte.x02] => "XYZ="
  | _ => ""
  end.

Definition externals : Externals :=
  {| glob_Glob := glob;
     tls_LoadX509KeyPair := load;
     x509_ParseCertificate := parse;
     sha256_Sum256 := sum256;
     base64_EncodeToString := encode;
     http_redirectNote := fun url code => url |}.

(** A backend that answers with a fixed body. *)
Definition hello (text : string) : http.Handler :=
  fun w r => http.Write text w.

Definition example : HttpBackend :=
  {| Hostnames := ["example.com"; "www.example.com"];
     Handler := hello "example" |}.

Definition local : HttpBackend :=
  {| Hostnames := ["localhost"]; Handler := hello "local" |}.

Definition any : HttpBackend :=
  {| Hostnames := ["*"]; Handler := hello "any" |}.

Definition hosts : list HttpBackend := [example; local; any].

(** The same without the catch-all entry. *)
Definition named : list HttpBackend := [example; local].

Definition tlsConfig (cert key : string) (hsts hpkp : Z) : Tls.t :=
  {| Tls.Listen := ":443"; Tls.Cert := cert; Tls.Key := key;
     Tls.Ssh := "127.0.0.1:22";
     Tls.Hsts := {| Hsts.Seconds := hsts; Hsts.Subdomains := true |};
     Tls.Hpkp := {| Hpkp.Seconds := hpkp; Hpkp.Subdomains := false;
                    Hpkp.BackupKeys := ["DEF="] |} |}.

Definition cfg (cert key : string) (hsts hpkp : Z) (hosts : list HttpBackend)
  : Config.t :=
  {| Config.Tls := tlsConfig cert key hsts hpkp;
     Config.Http := {| Http.Listen := ":80" |};
     Config.Redirector := {| Redirector.Listen := ":8080" |};
     Config.Hosts := hosts;
     Config.DefaultHost := "" |}.

Definition get (host uri : string) : http.Request :=
  {| http.Method := "GET"; http.Host := host; http.RequestURI := uri |}.


(** The same libraries with a parser that rejects every certificate. *)
Definition rejecting : Externals :=
  {| glob_Glob := glob;
     tls_LoadX509KeyPair := load;
     x509_ParseCertificate := fun _ => Err "asn1: syntax error";
     sha256_Sum256 := sum256;
     base64_EncodeToString := encode;
     http_redirectNote := fun url code => url |}.

(** A configuration that pins for a minute without a backup key. *)
Definition unbacked : Config.t :=
  {| Config.Tls :=
       {| Tls.Listen := ":443"; Tls.Cert := "cert.pem"; Tls.Key := "key.pem";
          Tls.Ssh := "127.0.0.1:22";
          Tls.Hsts := {| Hsts.Seconds := 0; Hsts.Subdomains := false |};
          Tls.Hpkp := {| Hpkp.Seconds := 60; Hpkp.Subdomains := false;
                         Hpkp.BackupKeys := [] |} |};
     Config.Http := {| Http.Listen := "" |};
     Config.Redirector := {| Redirector.Listen := ":8080" |};
     Config.Hosts := hosts;
     Config.DefaultHost := "example.com" |}.

(** [example] with its two patterns in the other order. *)
Definition example' : HttpBackend :=
  {| Hostnames := ["www.example.com"; "example.com"];
     Handler := hello "example" |}.

End Sample.


(** * Properties *)

(** ** Strings and header maps *)

Lemma append_String (ch : ascii) (a b : string) :
  String ch a +:+ b = String ch (a +:+ b).
Proof. reflexivity. Qed.

Lemma append_assoc (a b c : string) : (a +:+ b) +:+ c = a +:+ (b +:+ c).
Proof.
  induction a as [|ch a IH]; [reflexivity|].
  by rewrite !append_String, IH.
Qed.

Lemma append_empty_r (a : string) : a +:+ "" = a.
Proof.
  induction a as [|ch a IH]; [reflexivity|].
  by rewrite append_String, IH.
Qed.

Lemma concat_cons (sep x : string) (xs : list string) :
  xs ≠ [] → String.concat sep (x :: xs) = x +:+ sep +:+ String.concat sep xs.
Proof. destruct xs; [done | reflexivity]. Qed.

Lemma Header_Values_Add_eq (key value : string) (h : gmap string (list string)) :
  http.Header_Values (http.Header_Add key value h) key
  = http.Header_Values h key ++ [value].
Proof. unfold http.Header_Values at 1, http.Header_Add. by rewrite lookup_insert_eq. Qed.

Lemma Header_Values_Add_ne (key key' value : string)
      (h : gmap string (list string)) :
  key ≠ key' →
  http.Header_Values (http.Header_Add key value h) key'
  = http.Header_Values h key'.
Proof.
  intros Hne. unfold http.Header_Values at 1, http.Header_Add.
  by rewrite lookup_insert_ne.
Qed.

Lemma Header_Values_Set_eq (key value : string) (h : gmap string (list string)) :
  http.Header_Values (http.Header_Set key value h) key = [value].
Proof. unfold http.Header_Values, http.Header_Set. by rewrite lookup_insert_eq. Qed.

Lemma Header_Values_Set_ne (key key' value : string)
      (h : gmap string (list string)) :
  key ≠ key' →
  http.Header_Values (http.Header_Set key value h) key'
  = http.Header_Values h key'.
Proof.
  intros Hne. unfold http.Header_Values, http.Header_Set.
  by rewrite lookup_insert_ne.
Qed.

Lemma Header_WriteHeader (code : Z) (w : http.ResponseWriter) :
  http.Header (http.WriteHeader code w) = http.Header w.
Proof. unfold http.WriteHeader. by destruct (http.status w). Qed.

Lemma Header_Write (chunk : string) (w : http.ResponseWriter) :
  http.Header (http.Write chunk w) = http.Header w.
Proof. unfold http.Write. simpl. apply Header_WriteHeader. Qed.

Lemma index_last {A : Type} (xs : list A) (x : A) :
  index xs (Z.of_nat (length xs) - 1) = Done x ↔ last xs = Some x.
Proof.
  unfold index. rewrite last_lookup. destruct xs as [|y ys].
  - simpl. split; discriminate.
  - rewrite bool_decide_eq_false_2 by (simpl length; lia).
    replace (Z.to_nat (Z.of_nat (length (y :: ys)) - 1))
      with (Nat.pred (length (y :: ys))) by (simpl length; lia).
    destruct ((y :: ys) !! Nat.pred (length (y :: ys))); split; congruence.
Qed.

Example Sprintf_d_zero : Sprintf_d 0 = "0".
Proof. reflexivity. Qed.

Example Sprintf_d_year : Sprintf_d 31536000 = "31536000".
Proof. reflexivity. Qed.

Example Sprintf_d_negative : Sprintf_d (-1) = "-1".
Proof. reflexivity. Qed.

Section Properties.

Context `{Externals}.

(** ** [processConfig], block by block *)

Lemma processDefaultHost_Tls (s : State) :
  Config.Tls (config (processDefaultHost s)) = Config.Tls (config s).
Proof. unfold processDefaultHost. by case_bool_decide. Qed.

Lemma processDefaultHost_Hosts (s : State) :
  Config.Hosts (config (processDefaultHost s)) = Config.Hosts (config s).
Proof. unfold processDefaultHost. by case_bool_decide. Qed.

Lemma processDefaultHost_DefaultHost (s : State) :
  Config.DefaultHost (config (processDefaultHost s))
  = if bool_decide (Config.DefaultHost (config s) = "") then "localhost"
    else Config.DefaultHost (config s).
Proof. unfold processDefaultHost. by case_bool_decide. Qed.

Lemma processHsts_config (s : State) : config (processHsts s) = config s.
Proof.
  unfold processHsts. case_bool_decide; [|done].
  by destruct (Hsts.Subdomains _).
Qed.

Lemma processHsts_tlsKeyPair (s : State) :
  tlsKeyPair (processHsts s) = tlsKeyPair s.
Proof.
  unfold processHsts. case_bool_decide; [|done].
  by destruct (Hsts.Subdomains _).
Qed.

Lemma processHsts_hstsHeader (s : State) :
  Hsts.Seconds (Tls.Hsts (Config.Tls (config s))) ≠ 0 →
  hstsHeader (processHsts s)
  = hstsValue (Hsts.Seconds (Tls.Hsts (Config.Tls (config s))))
              (Hsts.Subdomains (Tls.Hsts (Config.Tls (config s)))).
Proof.
  intros Hne. unfold processHsts, hstsValue.
  rewrite bool_decide_eq_true_2 by done.
  destruct (Hsts.Subdomains _); simpl.
  - by rewrite append_assoc.
  - by rewrite append_empty_r.
Qed.

(** The loop of lines 192-194 touches [hpkpHeader] alone and appends the
    backup clauses in the order of the keys. *)
Lemma backupKeys_loop (keys : list string) (s : State) :
  let s' :=
    fold_left
      (fun s k =>
         set_hpkpHeader (hpkpHeader s +:+
                         ("; pin-sha256=" +:+ dquote +:+ k +:+ dquote)) s)
      keys s in
  config s' = config s ∧ tlsKeyPair s' = tlsKeyPair s
  ∧ hstsHeader s' = hstsHeader s ∧ logged s' = logged s
  ∧ ∀ rest, rest ≠ [] →
      hpkpHeader s' +:+ "; " +:+ String.concat "; " rest
      = hpkpHeader s +:+ "; "
        +:+ String.concat "; " ((pinClause <$> keys) ++ rest).
Proof.
  revert s. induction keys as [|k keys IH]; intros s; cbn [fold_left].
  - done.
  - destruct (IH (set_hpkpHeader (hpkpHeader s +:+
                    ("; pin-sha256=" +:+ dquote +:+ k +:+ dquote)) s))
      as (Hc & Hk & Hh & Hl & Hv).
    repeat split; try done.
    intros rest Hrest. rewrite (Hv rest Hrest).
    rewrite fmap_cons, <- app_comm_cons.
    rewrite (concat_cons _ (pinClause k)).
    + unfold pinClause. cbn [hpkpHeader set_hpkpHeader].
      by rewrite !append_assoc.
    + destruct keys; [done | discriminate].
Qed.

Lemma processHpkp_config (leaf : x509.Certificate) (s : State) :
  config (processHpkp leaf s) = config s.
Proof.
  unfold processHpkp. case_bool_decide; [|done].
  match goal with
  | |- context [fold_left ?f ?keys ?s0] =>
      destruct (backupKeys_loop keys s0) as (Hc & _)
  end.
  destruct (Hpkp.Subdomains _); simpl; rewrite Hc; simpl;
    by case_bool_decide.
Qed.

Lemma processHpkp_tlsKeyPair (leaf : x509.Certificate) (s : State) :
  tlsKeyPair (processHpkp leaf s) = tlsKeyPair s.
Proof.
  unfold processHpkp. case_bool_decide; [|done].
  match goal with
  | |- context [fold_left ?f ?keys ?s0] =>
      destruct (backupKeys_loop keys s0) as (_ & Hk & _)
  end.
  destruct (Hpkp.Subdomains _); simpl; rewrite Hk; simpl;
    by case_bool_decide.
Qed.

Lemma processHpkp_hstsHeader (leaf : x509.Certificate) (s : State) :
  hstsHeader (processHpkp leaf s) = hstsHeader s.
Proof.
  unfold processHpkp. case_bool_decide; [|done].
  match goal with
  | |- context [fold_left ?f ?keys ?s0] =>
      destruct (backupKeys_loop keys s0) as (_ & _ & Hh & _)
  end.
  destruct (Hpkp.Subdomains _); simpl; rewrite Hh; simpl;
    by case_bool_decide.
Qed.

Lemma processHpkp_hpkpHeader (leaf : x509.Certificate) (s : State) :
  Hpkp.Seconds (Tls.Hpkp (Config.Tls (config s))) ≠ 0 →
  hpkpHeader (processHpkp leaf s)
  = hpkpValue
      (base64_EncodeToString
         (sha256_Sum256 (x509.RawSubjectPublicKeyInfo leaf)))
      (Hpkp.BackupKeys (Tls.Hpkp (Config.Tls (config s))))
      (Hpkp.Seconds (Tls.Hpkp (Config.Tls (config s))))
      (Hpkp.Subdomains (Tls.Hpkp (Config.Tls (config s)))).
Proof.
  intros Hne. unfold processHpkp, hpkpValue, hpkpClauses.
  rewrite bool_decide_eq_true_2 by done.
  set (hpkp := Tls.Hpkp (Config.Tls (config s))).
  match goal with
  | |- context [fold_left ?f ?keys ?s0] =>
      destruct (backupKeys_loop keys s0) as (_ & _ & _ & _ & Hv);
      set (looped := fold_left f keys s0) in *
  end.
  cbn [hpkpHeader set_hpkpHeader] in Hv.
  rewrite concat_cons by (destruct (pinClause <$> _); discriminate).
  unfold pinClause at 1. rewrite <- !append_assoc, !(append_assoc _ "; ").
  rewrite <- Hv by (by destruct (Hpkp.Subdomains hpkp)).
  destruct (Hpkp.Subdomains hpkp); cbn [hpkpHeader set_hpkpHeader];
    cbn [String.concat app]; by rewrite !append_assoc.
Qed.

(** [processConfig] without a complete key pair stops after the default
    host name. *)
Lemma processConfig_plain (s : State) :
  Tls.Cert (Config.Tls (config s)) = ""
  ∨ Tls.Key (Config.Tls (config s)) = "" →
  processConfig s = Done (processDefaultHost s).
Proof.
  intros Hor. unfold processConfig. rewrite processDefaultHost_Tls.
  destruct Hor as [-> | ->].
  - done.
  - by rewrite andb_false_r.
Qed.

(** [processConfig] with a key pair that loads and whose last chain
    element parses runs to its end, through the two header blocks. *)
Lemma processConfig_tls (s : State) (kp : tls.Certificate) (der : bytes)
      (leaf : x509.Certificate) :
  Tls.Cert (Config.Tls (config s)) ≠ "" →
  Tls.Key (Config.Tls (config s)) ≠ "" →
  tls_LoadX509KeyPair (Tls.Cert (Config.Tls (config s)))
                      (Tls.Key (Config.Tls (config s))) = Ok kp →
  last (tls.Chain kp) = Some der →
  x509_ParseCertificate der = Ok leaf →
  processConfig s
  = Done (processHpkp leaf
            (processHsts
               (set_tlsKeyPair
                  {| tls.Chain := tls.Chain kp; tls.Leaf := Some leaf |}
                  (processDefaultHost s)))).
Proof.
  intros Hcert Hkey Hload Hlast Hparse.
  unfold processConfig. rewrite processDefaultHost_Tls.
  rewrite !bool_decide_eq_true_2 by done. cbn [andb].
  rewrite Hload. cbn [orFatal run_bind tlsKeyPair set_tlsKeyPair].
  apply index_last in Hlast. rewrite Hlast. cbn [run_bind].
  rewrite Hparse. reflexivity.
Qed.

(** X19.  Whenever [processConfig] runs to its end on a configured key
    pair, the certificate stored in [tlsKeyPair.Leaf] is the one parsed
    from the last element of the loaded chain. *)
Lemma processConfig_Leaf (s s' : State) (kp : tls.Certificate) :
  Tls.Cert (Config.Tls (config s)) ≠ "" →
  Tls.Key (Config.Tls (config s)) ≠ "" →
  tls_LoadX509KeyPair (Tls.Cert (Config.Tls (config s)))
                      (Tls.Key (Config.Tls (config s))) = Ok kp →
  processConfig s = Done s' →
  ∃ der leaf, last (tls.Chain kp) = Some der
              ∧ x509_ParseCertificate der = Ok leaf
              ∧ tls.Leaf (tlsKeyPair s') = Some leaf.
Proof.
  intros Hcert Hkey Hload Hrun.
  unfold processConfig in Hrun. rewrite processDefaultHost_Tls in Hrun.
  rewrite !bool_decide_eq_true_2 in Hrun by done. cbn [andb] in Hrun.
  rewrite Hload in Hrun. cbn [orFatal run_bind tlsKeyPair set_tlsKeyPair] in Hrun.
  destruct (index (tls.Chain kp) _) as [der| |] eqn:Hidx; try discriminate.
  apply index_last in Hidx. cbn [run_bind] in Hrun.
  destruct (x509_ParseCertificate der) as [leaf|] eqn:Hparse; try discriminate.
  cbn [orFatal run_bind] in Hrun. injection Hrun as <-.
  exists der, leaf. repeat split; try done.
  by rewrite processHpkp_tlsKeyPair, processHsts_tlsKeyPair.
Qed.

(** C4.  For a configured HSTS duration greater than 0 and either
    subdomain flag, [processConfig] (on a key pair that loads and parses)
    leaves in [hstsHeader] exactly [max-age=<seconds>], followed by
    [; includeSubdomains] exactly when the flag is set. *)
Theorem hsts_header_value (s : State) (kp : tls.Certificate) (der : bytes)
        (leaf : x509.Certificate) :
  let tlsc := Config.Tls (config s) in
  Tls.Cert tlsc ≠ "" →
  Tls.Key tlsc ≠ "" →
  tls_LoadX509KeyPair (Tls.Cert tlsc) (Tls.Key tlsc) = Ok kp →
  last (tls.Chain kp) = Some der →
  x509_ParseCertificate der = Ok leaf →
  0 < Hsts.Seconds (Tls.Hsts tlsc) →
  ∃ s', processConfig s = Done s'
        ∧ hstsHeader s'
          = "max-age=" +:+ Sprintf_d (Hsts.Seconds (Tls.Hsts tlsc))
            +:+ (if Hsts.Subdomains (Tls.Hsts tlsc)
                 then "; includeSubdomains" else "").
Proof.
  intros tlsc Hcert Hkey Hload Hlast Hparse Hpos.
  eexists. split; [by eapply processConfig_tls|].
  rewrite processHpkp_hstsHeader, processHsts_hstsHeader.
  - cbn [config set_tlsKeyPair]. by rewrite processDefaultHost_Tls.
  - cbn [config set_tlsKeyPair]. rewrite processDefaultHost_Tls.
    fold tlsc. lia.
Qed.

(** X20.  For a configured HPKP duration greater than 0, [processConfig]
    (on a key pair that loads and parses) leaves in [hpkpHeader] exactly
    these clauses joined with [; ]: the primary pin of the base64 SHA-256
    digest of the public-key-info bytes of the certificate parsed from
    the last element of the chain, the one held in [tlsKeyPair.Leaf]; one
    pin per backup key, verbatim and in configured order;
    [max-age=<seconds>]; and [includeSubdomains] only when the flag is
    set. *)
Theorem hpkp_header_value (s : State) (kp : tls.Certificate) (der : bytes)
        (leaf : x509.Certificate) :
  let tlsc := Config.Tls (config s) in
  Tls.Cert tlsc ≠ "" →
  Tls.Key tlsc ≠ "" →
  tls_LoadX509KeyPair (Tls.Cert tlsc) (Tls.Key tlsc) = Ok kp →
  last (tls.Chain kp) = Some der →
  x509_ParseCertificate der = Ok leaf →
  0 < Hpkp.Seconds (Tls.Hpkp tlsc) →
  ∃ s', processConfig s = Done s'
        ∧ tls.Leaf (tlsKeyPair s') = Some leaf
        ∧ hpkpHeader s'
          = hpkpValue
              (base64_EncodeToString
                 (sha256_Sum256 (x509.RawSubjectPublicKeyInfo leaf)))
              (Hpkp.BackupKeys (Tls.Hpkp tlsc))
              (Hpkp.Seconds (Tls.Hpkp tlsc))
              (Hpkp.Subdomains (Tls.Hpkp tlsc)).
Proof.
  intros tlsc Hcert Hkey Hload Hlast Hparse Hpos.
  eexists. split; [by eapply processConfig_tls|]. split.
  - by rewrite processHpkp_tlsKeyPair, processHsts_tlsKeyPair.
  - rewrite processHpkp_hpkpHeader; rewrite processHsts_config;
      cbn [config set_tlsKeyPair]; rewrite processDefaultHost_Tls.
    + done.
    + fold tlsc. lia.
Qed.

(** ** The virtual-host router *)

Lemma hostnames_loop_None (hostnames : list string) (handler : http.Handler)
      (w : http.ResponseWriter) (r : http.Request) :
  existsb (fun hostn => glob_Glob hostn (http.Host r)) hostnames = false →
  hostnames_loop hostnames handler w r = None.
Proof.
  induction hostnames as [|hostn rest IH]; cbn [existsb hostnames_loop].
  - done.
  - intros [Hhd Htl]%orb_false_elim. rewrite Hhd. by apply IH.
Qed.

Lemma hostnames_loop_Some (hostnames : list string) (handler : http.Handler)
      (w : http.ResponseWriter) (r : http.Request) :
  existsb (fun hostn => glob_Glob hostn (http.Host r)) hostnames = true →
  hostnames_loop hostnames handler w r = Some (handler w r).
Proof.
  induction hostnames as [|hostn rest IH]; cbn [existsb hostnames_loop].
  - done.
  - destruct (glob_Glob hostn (http.Host r)); [done|]. apply IH.
Qed.

Lemma hosts_loop_None (hosts : list HttpBackend)
      (w : http.ResponseWriter) (r : http.Request) :
  Forall (fun hostcnf => matches hostcnf (http.Host r) = false) hosts →
  hosts_loop hosts w r = None.
Proof.
  induction 1 as [|hostcnf rest Hhd _ IH]; cbn [hosts_loop].
  - done.
  - by rewrite (hostnames_loop_None _ _ _ _ Hhd).
Qed.

Lemma hosts_loop_first (before after : list HttpBackend) (hostcnf : HttpBackend)
      (w : http.ResponseWriter) (r : http.Request) :
  Forall (fun b => matches b (http.Host r) = false) before →
  matches hostcnf (http.Host r) = true →
  hosts_loop (before ++ hostcnf :: after) w r = Some (Handler hostcnf w r).
Proof.
  intros Hbefore Hmatch.
  induction Hbefore as [|b rest Hhd _ IH]; cbn [app hosts_loop].
  - by rewrite (hostnames_loop_Some _ _ _ _ Hmatch).
  - by rewrite (hostnames_loop_None _ _ _ _ Hhd).
Qed.

(** The router either leaves the writer as it is or returns what one
    configured backend made of it. *)
Lemma hosts_loop_shape (hosts : list HttpBackend)
      (w w' : http.ResponseWriter) (r : http.Request) :
  hosts_loop hosts w r = Some w' →
  ∃ hostcnf, hostcnf ∈ hosts ∧ w' = Handler hostcnf w r.
Proof.
  induction hosts as [|b rest IH]; cbn [hosts_loop]; [done|].
  destruct (hostnames_loop (Hostnames b) (Handler b) w r) as [w0|] eqn:Hin.
  - intros [= <-]. exists b. split; [apply list_elem_of_here|].
    revert Hin. generalize (Hostnames b) as hostnames.
    induction hostnames as [|hostn hostnames IHn]; cbn [hostnames_loop];
      [done|].
    destruct (glob_Glob hostn (http.Host r)); [by intros [= <-] | done].
  - intros (hostcnf & Hel & ->)%IH.
    exists hostcnf. split; [by apply list_elem_of_further | done].
Qed.

Lemma withDefaultHost_Host (s : State) (r : http.Request) :
  http.Host (withDefaultHost s r)
  = if bool_decide (http.Host r = "") then Config.DefaultHost (config s)
    else http.Host r.
Proof. unfold withDefaultHost. by case_bool_decide. Qed.

(** C6.  The router substitutes the default host name for an empty request
    host, walks the entries in configured order and each entry's patterns
    in order, and returns what the handler of the first entry with a
    matching pattern makes of the request: entries before it, none of
    whose patterns match, are passed over, and entries after it are never
    looked at. *)
Theorem router_first_match_wins (s : State) (before after : list HttpBackend)
        (hostcnf : HttpBackend) (w : http.ResponseWriter) (r : http.Request) :
  let host :=
    if bool_decide (http.Host r = "") then Config.DefaultHost (config s)
    else http.Host r in
  Config.Hosts (config s) = before ++ hostcnf :: after →
  Forall (fun b => matches b host = false) before →
  matches hostcnf host = true →
  http.Host (withDefaultHost s r) = host
  ∧ httpHandler s w r = Handler hostcnf w (withDefaultHost s r).
Proof.
  intros host Hhosts Hbefore Hmatch.
  split; [apply withDefaultHost_Host|].
  unfold httpHandler. rewrite Hhosts.
  rewrite (hosts_loop_first before after hostcnf); [done| |];
    by rewrite withDefaultHost_Host.
Qed.

(** C7.  When no pattern of any entry matches the request host, neither
    loop reaches the call of a backend, and the router returns the writer
    exactly as it received it. *)
Theorem router_no_match_unhandled (s : State) (w : http.ResponseWriter)
        (r : http.Request) :
  Forall (fun b => matches b (http.Host (withDefaultHost s r)) = false)
         (Config.Hosts (config s)) →
  hosts_loop (Config.Hosts (config s)) w (withDefaultHost s r) = None
  ∧ httpHandler s w r = w.
Proof.
  intros Hnone. unfold httpHandler.
  by rewrite (hosts_loop_None _ _ _ Hnone).
Qed.

(** C10.  Configuration processing turns an empty default host name into
    [localhost], and from then on a request with an empty host is routed
    exactly as the same request with host [localhost]. *)
Theorem default_host_localhost (s s' : State) :
  Config.DefaultHost (config s) = "" →
  processConfig s = Done s' →
  Config.DefaultHost (config s') = "localhost"
  ∧ ∀ w r, http.Host r = "" →
           httpHandler s' w r = httpHandler s' w (http.setHost "localhost" r).
Proof.
  intros Hempty Hrun.
  assert (Config.DefaultHost (config s') = "localhost") as Hdef.
  { unfold processConfig in Hrun.
    destruct (_ && _) in Hrun.
    - destruct (orFatal _ _) as [kp| |]; try discriminate.
      cbn [run_bind] in Hrun.
      destruct (index _ _) as [der| |]; try discriminate.
      cbn [run_bind] in Hrun.
      destruct (orFatal _ _) as [leaf| |]; try discriminate.
      cbn [run_bind] in Hrun. injection Hrun as <-.
      rewrite processHpkp_config, processHsts_config.
      cbn [config set_tlsKeyPair].
      rewrite processDefaultHost_DefaultHost.
      by rewrite bool_decide_eq_true_2.
    - injection Hrun as <-. rewrite processDefaultHost_DefaultHost.
      by rewrite bool_decide_eq_true_2. }
  split; [done|].
  intros w r Hhost. unfold httpHandler, withDefaultHost.
  rewrite Hhost, Hdef. reflexivity.
Qed.

(** ** Which handler adds which header *)

Lemma httpHandler_preserves (key : string) (s : State) :
  Forall (fun b => preserves key (Handler b)) (Config.Hosts (config s)) →
  preserves key (httpHandler s).
Proof.
  intros Hall w r. unfold httpHandler.
  destruct (hosts_loop _ w _) as [w'|] eqn:Hloop; [|done].
  apply hosts_loop_shape in Hloop as (hostcnf & Hel & ->).
  rewrite Forall_forall in Hall. by apply Hall.
Qed.

Lemma hexEscapeNonASCII_app (a b : string) :
  hexEscapeNonASCII (a +:+ b) = hexEscapeNonASCII a +:+ hexEscapeNonASCII b.
Proof.
  induction a as [|c a IH]; [reflexivity|].
  rewrite append_String. cbn [hexEscapeNonASCII].
  destruct (128 <=? Ascii.nat_of_ascii c)%nat;
    by rewrite IH, ?append_String.
Qed.


Lemma redirHandler_Header (w : http.ResponseWriter) (r : http.Request) :
  let located :=
    http.Header_Set "Location"
      (hexEscapeNonASCII ("https://" +:+ http.Host r +:+ http.RequestURI r))
      (http.Header w) in
  http.Header (redirHandler w r) = located
  ∨ http.Header (redirHandler w r)
    = http.Header_Set "Content-Type" "text/html; charset=utf-8" located.
Proof.
  intros located. unfold redirHandler, http_Redirect.
  destruct (negb _ && (_ || _)); destruct (negb _ && _);
    rewrite ?Header_Write, Header_WriteHeader; cbn [http.SetHeader http.Header];
    auto.
Qed.

Lemma redirHandler_preserves (key : string) :
  key ≠ "Location" → key ≠ "Content-Type" → preserves key redirHandler.
Proof.
  intros Hloc Hct w r.
  destruct (redirHandler_Header w r) as [-> | ->];
    rewrite ?(Header_Values_Set_ne "Content-Type") by done;
    by apply Header_Values_Set_ne.
Qed.

Lemma redirHandler_Location (w : http.ResponseWriter) (r : http.Request) :
  http.Header_Values (http.Header (redirHandler w r)) "Location"
  = [hexEscapeNonASCII ("https://" +:+ http.Host r +:+ http.RequestURI r)].
Proof.
  destruct (redirHandler_Header w r) as [-> | ->];
    rewrite ?(Header_Values_Set_ne "Content-Type") by done;
    apply Header_Values_Set_eq.
Qed.

Lemma redirHandler_status (w : http.ResponseWriter) (r : http.Request) :
  http.status w = None → http.status (redirHandler w r) = Some 301.
Proof.
  intros Hnew.
  unfold redirHandler, http_Redirect, http.Write, http.WriteHeader.
  destruct (negb _ && (_ || _)); cbn [http.SetHeader http.status];
    rewrite Hnew; by destruct (negb _ && _).
Qed.

(** What [secHandler] leaves under each of the two keys, for any writer. *)
Lemma secHandler_hsts (s : State) (w : http.ResponseWriter)
      (r : http.Request) :
  Forall (fun b => preserves "Strict-Transport-Security" (Handler b))
         (Config.Hosts (config s)) →
  http.Header_Values (http.Header (secHandler s w r))
                     "Strict-Transport-Security"
  = http.Header_Values (http.Header w) "Strict-Transport-Security"
    ++ (if bool_decide (Hsts.Seconds (Tls.Hsts (Config.Tls (config s))) ≠ 0)
        then [hstsHeader s] else []).
Proof.
  intros Hall. unfold secHandler.
  rewrite (httpHandler_preserves _ s Hall).
  assert ("Public-Key-Pins" ≠ "Strict-Transport-Security") as Hne
    by discriminate.
  do 2 case_bool_decide; cbn [http.AddHeader http.Header];
    rewrite ?(Header_Values_Add_ne _ _ _ _ Hne), ?Header_Values_Add_eq,
      ?app_nil_r;
    done.
Qed.

Lemma secHandler_hpkp (s : State) (w : http.ResponseWriter)
      (r : http.Request) :
  Forall (fun b => preserves "Public-Key-Pins" (Handler b))
         (Config.Hosts (config s)) →
  http.Header_Values (http.Header (secHandler s w r)) "Public-Key-Pins"
  = http.Header_Values (http.Header w) "Public-Key-Pins"
    ++ (if bool_decide (Hpkp.Seconds (Tls.Hpkp (Config.Tls (config s))) ≠ 0)
        then [hpkpHeader s] else []).
Proof.
  intros Hall. unfold secHandler.
  rewrite (httpHandler_preserves _ s Hall).
  assert ("Strict-Transport-Security" ≠ "Public-Key-Pins") as Hne
    by discriminate.
  do 2 case_bool_decide; cbn [http.AddHeader http.Header];
    rewrite ?Header_Values_Add_eq, ?(Header_Values_Add_ne _ _ _ _ Hne),
      ?app_nil_r;
    done.
Qed.

Lemma Header_Values_fresh (key : string) :
  http.Header_Values (http.Header http.fresh) key = [].
Proof. unfold http.Header_Values, http.fresh. cbn. by rewrite lookup_empty. Qed.

(** C5, as the code has it.  With backends that leave the header alone,
    the response of the TLS handler carries Strict-Transport-Security if
    and only if the configured HSTS duration is not 0 (and then with the
    value computed at start-up); with duration 0 the header is on no
    response. *)
Theorem hsts_sent_iff_nonzero (s : State) (r : http.Request) :
  let seconds := Hsts.Seconds (Tls.Hsts (Config.Tls (config s))) in
  let sent :=
    http.Header_Values (http.Header (secHandler s http.fresh r))
                       "Strict-Transport-Security" in
  Forall (fun b => preserves "Strict-Transport-Security" (Handler b))
         (Config.Hosts (config s)) →
  (sent ≠ [] ↔ seconds ≠ 0)
  ∧ (seconds ≠ 0 → sent = [hstsHeader s])
  ∧ (seconds = 0 → sent = []).
Proof.
  intros seconds sent Hall.
  pose proof (secHandler_hsts s http.fresh r Hall) as Hsts.
  fold sent seconds in Hsts. rewrite Header_Values_fresh in Hsts.
  rewrite Hsts. case_bool_decide as Hz; cbn [app]; repeat split; done.
Qed.

(** C8.  With backends that leave the two headers alone: whatever the
    plain-HTTP endpoint or the redirector endpoint serves with, the
    response carries neither Strict-Transport-Security nor
    Public-Key-Pins; whatever the TLS endpoint serves with, the response
    carries each of the two, with the value computed at start-up, when
    its configured duration is not 0. *)
Theorem security_headers_only_on_tls (s : State) :
  let tlsc := Config.Tls (config s) in
  let values (h : http.Handler) (r : http.Request) (key : string) :=
    http.Header_Values (http.Header (h http.fresh r)) key in
  Forall (fun b => preserves "Strict-Transport-Security" (Handler b)
                   ∧ preserves "Public-Key-Pins" (Handler b))
         (Config.Hosts (config s)) →
  (∀ name addr h l r, httpTask s = Serve name addr h l →
     values h r "Strict-Transport-Security" = []
     ∧ values h r "Public-Key-Pins" = [])
  ∧ (∀ name addr h l r, redirectorTask s = Serve name addr h l →
       values h r "Strict-Transport-Security" = []
       ∧ values h r "Public-Key-Pins" = [])
  ∧ (∀ name addr h l r, tlsTask s = Serve name addr h l →
       (Hsts.Seconds (Tls.Hsts tlsc) ≠ 0 →
        values h r "Strict-Transport-Security" = [hstsHeader s])
       ∧ (Hpkp.Seconds (Tls.Hpkp tlsc) ≠ 0 →
          values h r "Public-Key-Pins" = [hpkpHeader s])).
Proof.
  intros tlsc values Hall. subst values. cbn beta.
  assert (Forall (fun b => preserves "Strict-Transport-Security" (Handler b))
                 (Config.Hosts (config s))) as Hsts.
  { eapply Forall_impl; [exact Hall|]. by intros b [? _]. }
  assert (Forall (fun b => preserves "Public-Key-Pins" (Handler b))
                 (Config.Hosts (config s))) as Hpkp.
  { eapply Forall_impl; [exact Hall|]. by intros b [_ ?]. }
  split; [|split]; intros name addr h l r Htask.
  - unfold httpTask in Htask. case_bool_decide; [done|].
    injection Htask as _ _ <- _.
    by rewrite !httpHandler_preserves, !Header_Values_fresh.
  - unfold redirectorTask in Htask. case_bool_decide; [done|].
    injection Htask as _ _ <- _.
    by rewrite !redirHandler_preserves, !Header_Values_fresh.
  - unfold tlsTask in Htask. case_bool_decide; [done|].
    destruct (_ && _); [done|]. injection Htask as _ _ <- _.
    rewrite (secHandler_hsts s _ _ Hsts), (secHandler_hpkp s _ _ Hpkp).
    rewrite !Header_Values_fresh. fold tlsc.
    split; intros Hnz; by rewrite bool_decide_eq_true_2.
Qed.


(** The TLS goroutine returns early exactly when the listen address is
    empty or both paths are. *)
Lemma tlsTask_skipped (s : State) :
  let tlsc := Config.Tls (config s) in
  skipped (tlsTask s) = true
  ↔ Tls.Listen tlsc = "" ∨ (Tls.Cert tlsc = "" ∧ Tls.Key tlsc = "").
Proof.
  intros tlsc. unfold tlsTask. fold tlsc. split.
  - intros Hskip.
    destruct (bool_decide (Tls.Listen tlsc = "")) eqn:Hl.
    { left. by apply bool_decide_eq_true in Hl. }
    right.
    destruct (bool_decide (Tls.Cert tlsc = "")) eqn:Hc,
             (bool_decide (Tls.Key tlsc = "")) eqn:Hk;
      cbn [andb skipped] in Hskip; try discriminate.
    split; by eapply bool_decide_eq_true.
  - intros [Hl | [Hc Hk]].
    + by rewrite (bool_decide_eq_true_2 _ Hl).
    + rewrite (bool_decide_eq_true_2 _ Hc), (bool_decide_eq_true_2 _ Hk).
      by case_bool_decide.
Qed.

End Properties.

(** ** The statements on the small installation *)

Lemma hello_preserves (key text : string) : preserves key (Sample.hello text).
Proof. intros w r. unfold Sample.hello. by rewrite Header_Write. Qed.

Lemma sample_hosts_preserve :
  Forall (fun b => preserves "Strict-Transport-Security" (Handler b)
                   ∧ preserves "Public-Key-Pins" (Handler b))
         Sample.hosts.
Proof. repeat constructor; apply hello_preserves. Qed.

Lemma sample_hosts_preserve_hsts :
  Forall (fun b => preserves "Strict-Transport-Security" (Handler b))
         Sample.hosts.
Proof. repeat constructor; apply hello_preserves. Qed.

(** C1.  On a chain of two certificates, end-entity first as crypto/tls
    keeps it, [processConfig] parses the last element, the issuer, into
    [tlsKeyPair.Leaf]; the primary pin is the digest of the issuer's
    public-key-info bytes and not that of the end-entity certificate. *)
Theorem hpkp_pins_last_certificate_of_chain :
  let s := initial (Sample.cfg "chain.pem" "key.pem" 0 5184000 Sample.hosts) in
  let digest (der : bytes) :=
    Sample.encode (Sample.sum256 (x509.RawSubjectPublicKeyInfo
                                    {| x509.RawSubjectPublicKeyInfo := der |})) in
  ∃ kp s',
    @tls_LoadX509KeyPair Sample.externals "chain.pem" "key.pem" = Ok kp
    ∧ tls.leafDER kp = Some Sample.leafDER
    ∧ @processConfig Sample.externals s = Done s'
    ∧ tls.Leaf (tlsKeyPair s')
      = Some {| x509.RawSubjectPublicKeyInfo := Sample.caDER |}
    ∧ hpkpHeader s' = hpkpValue (digest Sample.caDER) ["DEF="] 5184000 false
    ∧ hpkpHeader s' ≠ hpkpValue (digest Sample.leafDER) ["DEF="] 5184000 false.
Proof.
  intros s digest. do 2 eexists.
  split; [reflexivity|]. split; [reflexivity|].
  split; [reflexivity|]. split; [reflexivity|].
  split; [reflexivity|]. vm_compute. discriminate.
Qed.

(** C3.  On the same chain of two certificates, with one backup key and
    the subdomain flag off, the header [processConfig] computes has the
    backup clause and the duration in their places, but its primary pin
    is the digest of the issuer's key: the value differs from the one
    made of the leaf's digest, the backup key and the duration. *)
Theorem hpkp_header_on_two_certificate_chain :
  let s := initial (Sample.cfg "chain.pem" "key.pem" 0 5184000 Sample.hosts) in
  let leafDigest := Sample.encode (Sample.sum256 Sample.leafDER) in
  let issuerDigest := Sample.encode (Sample.sum256 Sample.caDER) in
  ∃ s',
    @processConfig Sample.externals s = Done s'
    ∧ Hpkp.BackupKeys (Tls.Hpkp (Config.Tls (config s'))) = ["DEF="]
    ∧ Hpkp.Seconds (Tls.Hpkp (Config.Tls (config s'))) = 5184000
    ∧ Hpkp.Subdomains (Tls.Hpkp (Config.Tls (config s'))) = false
    ∧ leafDigest = "ABC="
    ∧ issuerDigest = "XYZ="
    ∧ hpkpHeader s'
      = "pin-sha256=" +:+ dquote +:+ "XYZ=" +:+ dquote
        +:+ "; pin-sha256=" +:+ dquote +:+ "DEF=" +:+ dquote
        +:+ "; max-age=5184000"
    ∧ hpkpHeader s'
      ≠ "pin-sha256=" +:+ dquote +:+ "ABC=" +:+ dquote
        +:+ "; pin-sha256=" +:+ dquote +:+ "DEF=" +:+ dquote
        +:+ "; max-age=5184000".
Proof.
  intros s leafDigest issuerDigest. eexists.
  do 7 (split; [reflexivity|]). vm_compute. discriminate.
Qed.

(** C2.  With a listen address and a certificate path but no key path,
    [processConfig] loads nothing, and the TLS goroutine still goes on to
    bind and serve, with the key pair at its zero value. *)
Theorem tls_task_serves_without_key :
  let s := initial (Sample.cfg "cert.pem" "" 0 0 Sample.hosts) in
  ∃ s', @processConfig Sample.externals s = Done s'
        ∧ Tls.Cert (Config.Tls (config s')) = "cert.pem"
        ∧ Tls.Key (Config.Tls (config s')) = ""
        ∧ tlsKeyPair s' = tls.zero
        ∧ @main Sample.externals s
          = Done [@redirectorTask Sample.externals s';
                  @httpTask Sample.externals s';
                  @tlsTask Sample.externals s']
        ∧ skipped (@tlsTask Sample.externals s') = false.
Proof. intros s. eexists. repeat split; reflexivity. Qed.

(** C5 as stated fails: with a duration of -1 the TLS handler sends the
    header although the duration is not greater than 0. *)
Lemma hsts_sent_for_negative_duration :
  let s := initial (Sample.cfg "cert.pem" "key.pem" (-1) 0 Sample.hosts) in
  ∃ s', @processConfig Sample.externals s = Done s'
        ∧ ¬ (http.Header_Values
               (http.Header (@secHandler Sample.externals s' http.fresh
                                         (Sample.get "example.com" "/")))
               "Strict-Transport-Security" ≠ []
             ↔ 0 < Hsts.Seconds (Tls.Hsts (Config.Tls (config s')))).
Proof.
  intros s. eexists. split; [reflexivity|].
  intros [Hsent _].
  assert (¬ (0 < -1)) as Hneg by lia. apply Hneg, Hsent.
  vm_compute. discriminate.
Qed.

Lemma hsts_header_value_witness :
  ∃ s', @processConfig Sample.externals
          (initial (Sample.cfg "cert.pem" "key.pem" 31536000 5184000
                               Sample.hosts)) = Done s'
        ∧ hstsHeader s' = "max-age=31536000; includeSubdomains".
Proof.
  apply (@hsts_header_value Sample.externals
           (initial (Sample.cfg "cert.pem" "key.pem" 31536000 5184000
                                Sample.hosts))
           {| tls.Chain := [Sample.leafDER]; tls.Leaf := None |}
           Sample.leafDER
           {| x509.RawSubjectPublicKeyInfo := Sample.leafDER |});
    [discriminate | discriminate | reflexivity | reflexivity | reflexivity
     | reflexivity].
Defined.

Lemma hpkp_header_value_witness :
  ∃ s', @processConfig Sample.externals
          (initial (Sample.cfg "cert.pem" "key.pem" 31536000 5184000
                               Sample.hosts)) = Done s'
        ∧ tls.Leaf (tlsKeyPair s')
          = Some {| x509.RawSubjectPublicKeyInfo := Sample.leafDER |}
        ∧ hpkpHeader s'
          = "pin-sha256=" +:+ dquote +:+ "ABC=" +:+ dquote
            +:+ "; pin-sha256=" +:+ dquote +:+ "DEF=" +:+ dquote
            +:+ "; max-age=5184000".
Proof.
  apply (@hpkp_header_value Sample.externals
           (initial (Sample.cfg "cert.pem" "key.pem" 31536000 5184000
                                Sample.hosts))
           {| tls.Chain := [Sample.leafDER]; tls.Leaf := None |}
           Sample.leafDER
           {| x509.RawSubjectPublicKeyInfo := Sample.leafDER |});
    [discriminate | discriminate | reflexivity | reflexivity | reflexivity
     | reflexivity].
Defined.

Lemma hsts_sent_iff_nonzero_witness :
  let s := set_hstsHeader "max-age=-1; includeSubdomains"
             (initial (Sample.cfg "cert.pem" "key.pem" (-1) 0 Sample.hosts)) in
  let sent :=
    http.Header_Values
      (http.Header (@secHandler Sample.externals s http.fresh
                                (Sample.get "example.com" "/")))
      "Strict-Transport-Security" in
  (sent ≠ [] ↔ -1 ≠ 0)
  ∧ (-1 ≠ 0 → sent = ["max-age=-1; includeSubdomains"])
  ∧ (-1 = 0 → sent = []).
Proof.
  exact (@hsts_sent_iff_nonzero Sample.externals
           (set_hstsHeader "max-age=-1; includeSubdomains"
              (initial (Sample.cfg "cert.pem" "key.pem" (-1) 0 Sample.hosts)))
           (Sample.get "example.com" "/") sample_hosts_preserve_hsts).
Defined.

Lemma router_first_match_wins_witness :
  let s := @processDefaultHost
             (initial (Sample.cfg "" "" 0 0 Sample.hosts)) in
  let r := Sample.get "" "/" in
  http.Host (withDefaultHost s r) = "localhost"
  ∧ @httpHandler Sample.externals s http.fresh r
    = Handler Sample.local http.fresh (withDefaultHost s r).
Proof.
  apply (@router_first_match_wins Sample.externals
           (processDefaultHost (initial (Sample.cfg "" "" 0 0 Sample.hosts)))
           [Sample.example] [Sample.any] Sample.local http.fresh
           (Sample.get "" "/"));
    [reflexivity | repeat constructor | reflexivity].
Defined.

Lemma router_no_match_unhandled_witness :
  let s := initial (Sample.cfg "" "" 0 0 Sample.named) in
  let r := Sample.get "nowhere.test" "/" in
  @hosts_loop Sample.externals (Config.Hosts (config s)) http.fresh
              (withDefaultHost s r) = None
  ∧ @httpHandler Sample.externals s http.fresh r = http.fresh.
Proof.
  apply (@router_no_match_unhandled Sample.externals
           (initial (Sample.cfg "" "" 0 0 Sample.named)) http.fresh
           (Sample.get "nowhere.test" "/")).
  repeat constructor.
Defined.

Lemma security_headers_only_on_tls_witness :
  let s := set_hpkpHeader "pins" (set_hstsHeader "max-age=1"
             (initial (Sample.cfg "cert.pem" "key.pem" 1 1 Sample.hosts))) in
  let r := Sample.get "example.com" "/" in
  (1 ≠ 0 →
   http.Header_Values
     (http.Header (@secHandler Sample.externals s http.fresh r))
     "Strict-Transport-Security" = ["max-age=1"])
  ∧ (1 ≠ 0 →
     http.Header_Values
       (http.Header (@secHandler Sample.externals s http.fresh r))
       "Public-Key-Pins" = ["pins"]).
Proof.
  intros s r.
  destruct (@security_headers_only_on_tls Sample.externals s
              sample_hosts_preserve) as (_ & _ & Htls).
  exact (Htls "TLS server" ":443" (@secHandler Sample.externals s)
              (TlsDemuxListener "127.0.0.1:22" [tlsKeyPair s]) r eq_refl).
Defined.



Lemma default_host_localhost_witness :
  let s' := processDefaultHost (initial (Sample.cfg "" "" 0 0 Sample.hosts)) in
  Config.DefaultHost (config s') = "localhost"
  ∧ ∀ w r, http.Host r = "" →
           @httpHandler Sample.externals s' w r
           = @httpHandler Sample.externals s' w (http.setHost "localhost" r).
Proof.
  apply (@default_host_localhost Sample.externals
           (initial (Sample.cfg "" "" 0 0 Sample.hosts))
           (processDefaultHost (initial (Sample.cfg "" "" 0 0 Sample.hosts))));
    reflexivity.
Defined.

(** * Further properties of start-up and of the handlers *)

Section StartUp.

Context `{Externals}.

Lemma processHsts_hpkpHeader (s : State) :
  hpkpHeader (processHsts s) = hpkpHeader s.
Proof.
  unfold processHsts. case_bool_decide; [|done].
  by destruct (Hsts.Subdomains _).
Qed.

Lemma processHsts_logged (s : State) : logged (processHsts s) = logged s.
Proof.
  unfold processHsts. case_bool_decide; [|done].
  by destruct (Hsts.Subdomains _).
Qed.

Lemma processHsts_zero (s : State) :
  Hsts.Seconds (Tls.Hsts (Config.Tls (config s))) = 0 → processHsts s = s.
Proof. intros Hz. unfold processHsts. by rewrite bool_decide_eq_false_2 by lia. Qed.

Lemma processHpkp_zero (leaf : x509.Certificate) (s : State) :
  Hpkp.Seconds (Tls.Hpkp (Config.Tls (config s))) = 0 → processHpkp leaf s = s.
Proof. intros Hz. unfold processHpkp. by rewrite bool_decide_eq_false_2 by lia. Qed.

(** The lines [processHpkp] logs: the warning, once, when there is no
    backup key. *)
Lemma processHpkp_logged (leaf : x509.Certificate) (s : State) :
  Hpkp.Seconds (Tls.Hpkp (Config.Tls (config s))) ≠ 0 →
  logged (processHpkp leaf s)
  = logged s
    ++ match Hpkp.BackupKeys (Tls.Hpkp (Config.Tls (config s))) with
       | [] => ["You should add a backup key to HPKP backup_keys!" +:+ newline]
       | _ :: _ => []
       end.
Proof.
  intros Hnz. unfold processHpkp. rewrite bool_decide_eq_true_2 by done.
  match goal with
  | |- context [fold_left ?f ?keys ?s0] =>
      destruct (backupKeys_loop keys s0) as (_ & _ & _ & Hl & _)
  end.
  destruct (Hpkp.Subdomains _); cbn [logged set_hpkpHeader]; rewrite Hl;
    clear Hl; cbn [logged set_hpkpHeader];
    destruct (Hpkp.BackupKeys _); cbn [length];
    case_bool_decide; try lia; cbn [logged log_Printf];
    by rewrite ?app_nil_r.
Qed.

(** X1.  When the certificate path or the key path is empty,
    [processConfig] calls no library, cannot fail, and leaves the key
    pair, both header values and the log as they were, whatever the
    configured durations. *)
Theorem processConfig_without_keypair (s : State) :
  Tls.Cert (Config.Tls (config s)) = ""
  ∨ Tls.Key (Config.Tls (config s)) = "" →
  ∃ s', processConfig s = Done s'
        ∧ tlsKeyPair s' = tlsKeyPair s
        ∧ hstsHeader s' = hstsHeader s
        ∧ hpkpHeader s' = hpkpHeader s
        ∧ logged s' = logged s.
Proof.
  intros Hor. exists (processDefaultHost s).
  split; [by apply processConfig_plain|].
  unfold processDefaultHost. by case_bool_decide.
Qed.

(** X2.  When both paths are set and the key pair does not load,
    [processConfig] stops the process with the library's error in the
    message, and [main] starts no endpoint, the two plain ones
    included. *)
Theorem load_error_is_fatal (s : State) (e : string) :
  let tlsc := Config.Tls (config s) in
  Tls.Cert tlsc ≠ "" →
  Tls.Key tlsc ≠ "" →
  tls_LoadX509KeyPair (Tls.Cert tlsc) (Tls.Key tlsc) = Err e →
  processConfig s = Fatal ("Error reading TLS key/cert: " +:+ e +:+ " :-(")
  ∧ main s = Fatal ("Error reading TLS key/cert: " +:+ e +:+ " :-(").
Proof.
  intros tlsc Hcert Hkey Hload.
  assert (processConfig s
          = Fatal ("Error reading TLS key/cert: " +:+ e +:+ " :-(")) as Hrun.
  { unfold processConfig. rewrite processDefaultHost_Tls. fold tlsc.
    rewrite !bool_decide_eq_true_2 by done. cbn [andb].
    by rewrite Hload. }
  split; [done|]. unfold main. by rewrite Hrun.
Qed.

(** X3.  When the key pair loads and the last element of its chain does
    not parse, [processConfig] stops the process with the parser's error
    in the message, and [main] starts no endpoint. *)
Theorem parse_error_is_fatal (s : State) (kp : tls.Certificate) (der : bytes)
        (e : string) :
  let tlsc := Config.Tls (config s) in
  Tls.Cert tlsc ≠ "" →
  Tls.Key tlsc ≠ "" →
  tls_LoadX509KeyPair (Tls.Cert tlsc) (Tls.Key tlsc) = Ok kp →
  last (tls.Chain kp) = Some der →
  x509_ParseCertificate der = Err e →
  processConfig s = Fatal ("Error parsing TLS cert: " +:+ e +:+ " :-(")
  ∧ main s = Fatal ("Error parsing TLS cert: " +:+ e +:+ " :-(").
Proof.
  intros tlsc Hcert Hkey Hload Hlast Hparse.
  assert (processConfig s
          = Fatal ("Error parsing TLS cert: " +:+ e +:+ " :-(")) as Hrun.
  { unfold processConfig. rewrite processDefaultHost_Tls. fold tlsc.
    rewrite !bool_decide_eq_true_2 by done. cbn [andb].
    rewrite Hload. cbn [orFatal run_bind tlsKeyPair set_tlsKeyPair].
    apply index_last in Hlast. rewrite Hlast. cbn [run_bind].
    by rewrite Hparse. }
  split; [done|]. unfold main. by rewrite Hrun.
Qed.

(** X4.  [processConfig] runs to its end exactly when a path is empty, or
    the key pair loads, its chain has a last element and that element
    parses. *)
Theorem processConfig_Done_iff (s : State) :
  let tlsc := Config.Tls (config s) in
  (∃ s', processConfig s = Done s')
  ↔ Tls.Cert tlsc = "" ∨ Tls.Key tlsc = ""
    ∨ ∃ kp der leaf,
        tls_LoadX509KeyPair (Tls.Cert tlsc) (Tls.Key tlsc) = Ok kp
        ∧ last (tls.Chain kp) = Some der
        ∧ x509_ParseCertificate der = Ok leaf.
Proof.
  intros tlsc. split.
  - intros [s' Hrun].
    destruct (decide (Tls.Cert tlsc = "")) as [|Hcert]; [by left|].
    destruct (decide (Tls.Key tlsc = "")) as [|Hkey]; [by right; left|].
    right; right.
    unfold processConfig in Hrun. rewrite processDefaultHost_Tls in Hrun.
    fold tlsc in Hrun.
    rewrite !bool_decide_eq_true_2 in Hrun by done. cbn [andb] in Hrun.
    destruct (tls_LoadX509KeyPair _ _) as [kp|] eqn:Hload; [|done].
    cbn [orFatal run_bind tlsKeyPair set_tlsKeyPair] in Hrun.
    destruct (index (tls.Chain kp) _) as [der| |] eqn:Hidx; try done.
    apply index_last in Hidx. cbn [run_bind] in Hrun.
    destruct (x509_ParseCertificate der) as [leaf|] eqn:Hparse; [|done].
    by exists kp, der, leaf.
  - intros [Hcert | [Hkey | (kp & der & leaf & Hload & Hlast & Hparse)]].
    + eexists. apply processConfig_plain. by left.
    + eexists. apply processConfig_plain. by right.
    + destruct (decide (Tls.Cert tlsc = "")) as [Hc|Hc].
      { eexists. apply processConfig_plain. by left. }
      destruct (decide (Tls.Key tlsc = "")) as [Hk|Hk].
      { eexists. apply processConfig_plain. by right. }
      eexists. by eapply processConfig_tls.
Qed.

(** X5.  [processConfig] changes nothing of the configuration but the
    default host name, and that only when it was empty. *)
Theorem processConfig_keeps_config (s s' : State) :
  processConfig s = Done s' →
  Config.Tls (config s') = Config.Tls (config s)
  ∧ Config.Http (config s') = Config.Http (config s)
  ∧ Config.Redirector (config s') = Config.Redirector (config s)
  ∧ Config.Hosts (config s') = Config.Hosts (config s)
  ∧ Config.DefaultHost (config s')
    = if bool_decide (Config.DefaultHost (config s) = "") then "localhost"
      else Config.DefaultHost (config s).
Proof.
  intros Hrun.
  assert (config s' = config (processDefaultHost s)) as ->.
  { unfold processConfig in Hrun.
    destruct (_ && _) in Hrun.
    - destruct (orFatal _ _) as [kp| |]; try discriminate.
      cbn [run_bind] in Hrun.
      destruct (index _ _) as [der| |]; try discriminate.
      cbn [run_bind] in Hrun.
      destruct (orFatal _ _) as [leaf| |]; try discriminate.
      cbn [run_bind] in Hrun. injection Hrun as <-.
      by rewrite processHpkp_config, processHsts_config.
    - by injection Hrun as <-. }
  unfold processDefaultHost. by case_bool_decide.
Qed.

End StartUp.

Section KeyPairLoaded.

Context `{Externals}.

(** The state [processConfig] ends in when the key pair loads and parses:
    the two header blocks applied to the variables holding the loaded
    chain and the parsed certificate. *)
Lemma processConfig_loaded (s : State) (kp : tls.Certificate) (der : bytes)
      (leaf : x509.Certificate) :
  let tlsc := Config.Tls (config s) in
  Tls.Cert tlsc ≠ "" →
  Tls.Key tlsc ≠ "" →
  tls_LoadX509KeyPair (Tls.Cert tlsc) (Tls.Key tlsc) = Ok kp →
  last (tls.Chain kp) = Some der →
  x509_ParseCertificate der = Ok leaf →
  ∃ s0, processConfig s = Done (processHpkp leaf (processHsts s0))
        ∧ Config.Tls (config s0) = tlsc
        ∧ tlsKeyPair s0 = {| tls.Chain := tls.Chain kp; tls.Leaf := Some leaf |}
        ∧ hstsHeader s0 = hstsHeader s
        ∧ hpkpHeader s0 = hpkpHeader s
        ∧ logged s0 = logged s.
Proof.
  intros tlsc Hcert Hkey Hload Hlast Hparse.
  eexists. split; [by eapply processConfig_tls|].
  cbn [config tlsKeyPair hstsHeader hpkpHeader logged set_tlsKeyPair].
  rewrite processDefaultHost_Tls.
  unfold processDefaultHost. by case_bool_decide.
Qed.

(** X6.  With a key pair that loads and parses, [processConfig] logs the
    backup-key warning, once, exactly when the HPKP duration is not 0 and
    no backup key is configured; otherwise it logs nothing.  The warning
    never stops start-up. *)
Theorem backup_key_warning (s : State) (kp : tls.Certificate) (der : bytes)
        (leaf : x509.Certificate) :
  let tlsc := Config.Tls (config s) in
  let warning := "You should add a backup key to HPKP backup_keys!" +:+ newline in
  Tls.Cert tlsc ≠ "" →
  Tls.Key tlsc ≠ "" →
  tls_LoadX509KeyPair (Tls.Cert tlsc) (Tls.Key tlsc) = Ok kp →
  last (tls.Chain kp) = Some der →
  x509_ParseCertificate der = Ok leaf →
  ∃ s', processConfig s = Done s'
        ∧ (Hpkp.Seconds (Tls.Hpkp tlsc) ≠ 0 →
           Hpkp.BackupKeys (Tls.Hpkp tlsc) = [] →
           logged s' = logged s ++ [warning])
        ∧ (Hpkp.Seconds (Tls.Hpkp tlsc) = 0
           ∨ Hpkp.BackupKeys (Tls.Hpkp tlsc) ≠ [] →
           logged s' = logged s).
Proof.
  intros tlsc warning Hcert Hkey Hload Hlast Hparse.
  destruct (processConfig_loaded s kp der leaf Hcert Hkey Hload Hlast Hparse)
    as (s0 & Hrun & Htls & _ & _ & _ & Hlog).
  fold tlsc in Htls.
  eexists. split; [exact Hrun|].
  destruct (decide (Hpkp.Seconds (Tls.Hpkp tlsc) = 0)) as [Hz|Hnz].
  - rewrite processHpkp_zero
      by (by rewrite processHsts_config, Htls).
    rewrite processHsts_logged, Hlog. split; [done|]. done.
  - rewrite processHpkp_logged
      by (by rewrite processHsts_config, Htls).
    rewrite processHsts_logged, processHsts_config, Htls, Hlog.
    split.
    + by intros _ ->.
    + intros [Hz | Hkeys]; [done|].
      destruct (Hpkp.BackupKeys (Tls.Hpkp tlsc)); [done|].
      by rewrite app_nil_r.
Qed.

(** X7.  A duration of 0 leaves the header variable as it was, also with
    a key pair that loads and parses: the program computes no value for
    a header it will not send. *)
Theorem zero_duration_keeps_header (s : State) (kp : tls.Certificate)
        (der : bytes) (leaf : x509.Certificate) :
  let tlsc := Config.Tls (config s) in
  Tls.Cert tlsc ≠ "" →
  Tls.Key tlsc ≠ "" →
  tls_LoadX509KeyPair (Tls.Cert tlsc) (Tls.Key tlsc) = Ok kp →
  last (tls.Chain kp) = Some der →
  x509_ParseCertificate der = Ok leaf →
  ∃ s', processConfig s = Done s'
        ∧ (Hsts.Seconds (Tls.Hsts tlsc) = 0 → hstsHeader s' = hstsHeader s)
        ∧ (Hpkp.Seconds (Tls.Hpkp tlsc) = 0 → hpkpHeader s' = hpkpHeader s).
Proof.
  intros tlsc Hcert Hkey Hload Hlast Hparse.
  destruct (processConfig_loaded s kp der leaf Hcert Hkey Hload Hlast Hparse)
    as (s0 & Hrun & Htls & _ & Hh & Hp & _).
  fold tlsc in Htls.
  eexists. split; [exact Hrun|]. split.
  - intros Hz. rewrite processHpkp_hstsHeader.
    rewrite processHsts_zero by (by rewrite Htls). done.
  - intros Hz. rewrite processHpkp_zero
      by (by rewrite processHsts_config, Htls).
    by rewrite processHsts_hpkpHeader.
Qed.

(** X8.  A negative HSTS duration is not rejected: the value computed is
    [max-age=-] followed by the digits of the duration's magnitude, and
    the subdomain marker when the flag is set. *)
Theorem negative_duration_in_header (s : State) (kp : tls.Certificate)
        (der : bytes) (leaf : x509.Certificate) :
  let tlsc := Config.Tls (config s) in
  Tls.Cert tlsc ≠ "" →
  Tls.Key tlsc ≠ "" →
  tls_LoadX509KeyPair (Tls.Cert tlsc) (Tls.Key tlsc) = Ok kp →
  last (tls.Chain kp) = Some der →
  x509_ParseCertificate der = Ok leaf →
  Hsts.Seconds (Tls.Hsts tlsc) < 0 →
  ∃ s', processConfig s = Done s'
        ∧ hstsHeader s'
          = "max-age=-" +:+ Sprintf_d (- Hsts.Seconds (Tls.Hsts tlsc))
            +:+ (if Hsts.Subdomains (Tls.Hsts tlsc)
                 then "; includeSubdomains" else "").
Proof.
  intros tlsc Hcert Hkey Hload Hlast Hparse Hneg.
  destruct (processConfig_loaded s kp der leaf Hcert Hkey Hload Hlast Hparse)
    as (s0 & Hrun & Htls & _).
  fold tlsc in Htls.
  eexists. split; [exact Hrun|].
  rewrite processHpkp_hstsHeader, processHsts_hstsHeader
    by (rewrite Htls; lia).
  rewrite Htls. unfold hstsValue.
  destruct (Hsts.Seconds (Tls.Hsts tlsc)) as [|p|p]; [lia|lia|].
  reflexivity.
Qed.

(** X9.  With a listen address and a key pair that loads and parses, the
    TLS goroutine serves on that address, behind the SSH demultiplexer
    for the configured SSH address, with exactly one certificate: the
    chain as loaded, its [Leaf] the certificate parsed from the chain's
    last element. *)
Theorem tls_serves_loaded_chain (s : State) (kp : tls.Certificate)
        (der : bytes) (leaf : x509.Certificate) :
  let tlsc := Config.Tls (config s) in
  Tls.Listen tlsc ≠ "" →
  Tls.Cert tlsc ≠ "" →
  Tls.Key tlsc ≠ "" →
  tls_LoadX509KeyPair (Tls.Cert tlsc) (Tls.Key tlsc) = Ok kp →
  last (tls.Chain kp) = Some der →
  x509_ParseCertificate der = Ok leaf →
  ∃ s', processConfig s = Done s'
        ∧ tlsTask s'
          = Serve "TLS server" (Tls.Listen tlsc) (secHandler s')
              (TlsDemuxListener (Tls.Ssh tlsc)
                 [{| tls.Chain := tls.Chain kp; tls.Leaf := Some leaf |}]).
Proof.
  intros tlsc Hlisten Hcert Hkey Hload Hlast Hparse.
  destruct (processConfig_loaded s kp der leaf Hcert Hkey Hload Hlast Hparse)
    as (s0 & Hrun & Htls & Hkp & _).
  fold tlsc in Htls.
  eexists. split; [exact Hrun|].
  unfold tlsTask.
  rewrite processHpkp_config, processHsts_config, Htls.
  rewrite processHpkp_tlsKeyPair, processHsts_tlsKeyPair, Hkp.
  rewrite (bool_decide_eq_false_2 (Tls.Listen tlsc = "")) by done.
  rewrite (bool_decide_eq_false_2 (Tls.Cert tlsc = "")) by done.
  reflexivity.
Qed.

End KeyPairLoaded.

Section Handlers.

Context `{Externals}.

(** The two loops of [httpHandler] together look for the first entry one
    of whose patterns matches. *)
Lemma hosts_loop_find (hosts : list HttpBackend) (w : http.ResponseWriter)
      (r : http.Request) :
  hosts_loop hosts w r
  = (fun b => Handler b w r) <$> find (fun b => matches b (http.Host r)) hosts.
Proof.
  induction hosts as [|b rest IH]; cbn [hosts_loop find]; [done|].
  destruct (matches b (http.Host r)) eqn:Hm.
  - by rewrite (hostnames_loop_Some _ _ _ _ Hm).
  - by rewrite (hostnames_loop_None _ _ _ _ Hm).
Qed.

Lemma processConfig_config (s s' : State) :
  processConfig s = Done s' → config s' = config (processDefaultHost s).
Proof.
  intros Hrun. unfold processConfig in Hrun.
  destruct (_ && _) in Hrun.
  - destruct (orFatal _ _) as [kp| |]; try discriminate.
    cbn [run_bind] in Hrun.
    destruct (index _ _) as [der| |]; try discriminate.
    cbn [run_bind] in Hrun.
    destruct (orFatal _ _) as [leaf| |]; try discriminate.
    cbn [run_bind] in Hrun. injection Hrun as <-.
    by rewrite processHpkp_config, processHsts_config.
  - by injection Hrun as <-.
Qed.

Lemma existsb_Permutation {A : Type} (f : A → bool) (l l' : list A) :
  l ≡ₚ l' → existsb f l = existsb f l'.
Proof.
  induction 1 as [|x l l' _ IH|x y l|l l' l'' _ IH1 _ IH2]; cbn [existsb].
  - done.
  - by rewrite IH.
  - by destruct (f x), (f y).
  - by rewrite IH1.
Qed.

(** X10.  The router is a first-match search: the request, its empty host
    replaced by the default host name, goes to the handler of the first
    configured entry that has a matching pattern, and to no handler at
    all when there is none. *)
Theorem router_is_first_match (s : State) (w : http.ResponseWriter)
        (r : http.Request) :
  let r' := withDefaultHost s r in
  httpHandler s w r
  = match find (fun b => matches b (http.Host r')) (Config.Hosts (config s)) with
    | Some b => Handler b w r'
    | None => w
    end.
Proof.
  intros r'. unfold httpHandler. fold r'. rewrite hosts_loop_find.
  by destruct (find _ _).
Qed.

(** X11.  The TLS handler adds its headers before it routes: the backend
    chosen by the first-match search receives the writer that already
    carries them (Strict-Transport-Security first), and a request no
    entry matches ends with that writer, headers added and nothing
    else. *)
Theorem tls_handler_adds_headers_then_routes (s : State)
        (w : http.ResponseWriter) (r : http.Request) :
  let tlsc := Config.Tls (config s) in
  let r' := withDefaultHost s r in
  let w1 :=
    if bool_decide (Hsts.Seconds (Tls.Hsts tlsc) ≠ 0)
    then http.AddHeader "Strict-Transport-Security" (hstsHeader s) w else w in
  let w2 :=
    if bool_decide (Hpkp.Seconds (Tls.Hpkp tlsc) ≠ 0)
    then http.AddHeader "Public-Key-Pins" (hpkpHeader s) w1 else w1 in
  http.status w2 = http.status w
  ∧ http.body w2 = http.body w
  ∧ secHandler s w r
    = match find (fun b => matches b (http.Host r')) (Config.Hosts (config s)) with
      | Some b => Handler b w2 r'
      | None => w2
      end.
Proof.
  intros tlsc r' w1 w2. repeat split.
  - subst w2 w1. by do 2 case_bool_decide.
  - subst w2 w1. by do 2 case_bool_decide.
  - unfold secHandler, httpHandler. fold tlsc r' w1 w2.
    rewrite hosts_loop_find. by destruct (find _ _).
Qed.

(** X12.  The TLS handler touches no header but its two: under any other
    key the response carries what the writer had, as long as the
    backends leave that key alone. *)
Theorem tls_handler_leaves_other_headers (s : State) (key : string) :
  key ≠ "Strict-Transport-Security" →
  key ≠ "Public-Key-Pins" →
  Forall (fun b => preserves key (Handler b)) (Config.Hosts (config s)) →
  preserves key (secHandler s).
Proof.
  intros Hsts Hpkp Hall w r. unfold secHandler.
  rewrite (httpHandler_preserves _ s Hall).
  do 2 case_bool_decide; cbn [http.AddHeader http.Header];
    rewrite ?Header_Values_Add_ne by done; done.
Qed.

(** X13.  Public-Key-Pins is on a TLS response if and only if the
    configured HPKP duration is not 0, negative durations included; it
    then has the one value computed at start-up. *)
Theorem hpkp_sent_iff_nonzero (s : State) (r : http.Request) :
  let seconds := Hpkp.Seconds (Tls.Hpkp (Config.Tls (config s))) in
  let sent :=
    http.Header_Values (http.Header (secHandler s http.fresh r))
                       "Public-Key-Pins" in
  Forall (fun b => preserves "Public-Key-Pins" (Handler b))
         (Config.Hosts (config s)) →
  (sent ≠ [] ↔ seconds ≠ 0)
  ∧ (seconds ≠ 0 → sent = [hpkpHeader s])
  ∧ (seconds = 0 → sent = []).
Proof.
  intros seconds sent Hall.
  pose proof (secHandler_hpkp s http.fresh r Hall) as Hpkp.
  fold sent seconds in Hpkp. rewrite Header_Values_fresh in Hpkp.
  rewrite Hpkp. case_bool_decide as Hz; cbn [app]; repeat split; done.
Qed.

(** X14.  Which goroutines return early is read off the configuration as
    it was before processing: the redirector and the plain-HTTP endpoint
    each exactly when its own listen address is empty, whatever the TLS
    settings; the TLS endpoint exactly when its listen address is empty
    or both the certificate and the key path are. *)
Theorem main_endpoints (s : State) (tasks : list Task) :
  let c := config s in
  main s = Done tasks →
  ∃ redirector plain tlsEndpoint,
    tasks = [redirector; plain; tlsEndpoint]
    ∧ (skipped redirector = true
       ↔ Redirector.Listen (Config.Redirector c) = "")
    ∧ (skipped plain = true ↔ Http.Listen (Config.Http c) = "")
    ∧ (skipped tlsEndpoint = true
       ↔ Tls.Listen (Config.Tls c) = ""
         ∨ (Tls.Cert (Config.Tls c) = "" ∧ Tls.Key (Config.Tls c) = "")).
Proof.
  intros c Hmain. unfold main in Hmain.
  destruct (processConfig s) as [s'| |] eqn:Hrun; try discriminate.
  cbn [run_bind] in Hmain. injection Hmain as <-.
  apply processConfig_config in Hrun.
  assert (Config.Tls (config s') = Config.Tls c
          ∧ Config.Http (config s') = Config.Http c
          ∧ Config.Redirector (config s') = Config.Redirector c)
    as (Htls & Hhttp & Hredir).
  { rewrite Hrun. unfold processDefaultHost. by case_bool_decide. }
  do 3 eexists. split; [reflexivity|]. repeat split.
  - unfold redirectorTask. rewrite Hredir.
    case_bool_decide; [done | discriminate].
  - intros Hempty. unfold redirectorTask. rewrite Hredir.
    by rewrite (bool_decide_eq_true_2 _ Hempty).
  - unfold httpTask. rewrite Hhttp.
    case_bool_decide; [done | discriminate].
  - intros Hempty. unfold httpTask. rewrite Hhttp.
    by rewrite (bool_decide_eq_true_2 _ Hempty).
  - intros Hskip. apply tlsTask_skipped in Hskip. by rewrite Htls in Hskip.
  - intros Hcond. apply tlsTask_skipped. by rewrite Htls.
Qed.

(** X16.  Routing depends on the order of the entries but not on the
    order of the patterns inside an entry: two configurations with the
    same default host name whose entries agree, one by one, in handler
    and in patterns up to order, route every request alike. *)
Theorem pattern_order_irrelevant (s1 s2 : State) (w : http.ResponseWriter)
        (r : http.Request) :
  Config.DefaultHost (config s1) = Config.DefaultHost (config s2) →
  Forall2 (fun b1 b2 => Handler b1 = Handler b2
                        ∧ Hostnames b1 ≡ₚ Hostnames b2)
          (Config.Hosts (config s1)) (Config.Hosts (config s2)) →
  httpHandler s1 w r = httpHandler s2 w r.
Proof.
  intros Hdef Hall. unfold httpHandler, withDefaultHost. rewrite Hdef.
  generalize (if bool_decide (http.Host r = "")
              then http.setHost (Config.DefaultHost (config s2)) r
              else r) as r'.
  intros r'. rewrite !hosts_loop_find.
  induction Hall as [|b1 b2 l1 l2 [Hh Hp] _ IH]; cbn [find]; [done|].
  assert (matches b1 (http.Host r') = matches b2 (http.Host r')) as ->.
  { unfold matches. by apply existsb_Permutation. }
  destruct (matches b2 (http.Host r')).
  - cbn. by rewrite Hh.
  - exact IH.
Qed.

End Handlers.

(** ** The further properties on the small installation *)

Lemma processConfig_without_keypair_witness :
  ∃ s', @processConfig Sample.externals
          (initial (Sample.cfg "cert.pem" "" 31536000 5184000 Sample.hosts))
        = Done s'
        ∧ tlsKeyPair s' = tls.zero
        ∧ hstsHeader s' = ""
        ∧ hpkpHeader s' = ""
        ∧ logged s' = [].
Proof.
  apply (@processConfig_without_keypair Sample.externals
           (initial (Sample.cfg "cert.pem" "" 31536000 5184000 Sample.hosts))).
  right. reflexivity.
Defined.

Lemma load_error_is_fatal_witness :
  let s := initial (Sample.cfg "nope.pem" "key.pem" 0 0 Sample.hosts) in
  let msg :=
    "Error reading TLS key/cert: open: no such file or directory :-(" in
  @processConfig Sample.externals s = Fatal msg
  ∧ @main Sample.externals s = Fatal msg.
Proof.
  apply (@load_error_is_fatal Sample.externals
           (initial (Sample.cfg "nope.pem" "key.pem" 0 0 Sample.hosts))
           "open: no such file or directory");
    [discriminate | discriminate | reflexivity].
Defined.

Lemma parse_error_is_fatal_witness :
  let s := initial (Sample.cfg "cert.pem" "key.pem" 0 0 Sample.hosts) in
  let msg := "Error parsing TLS cert: asn1: syntax error :-(" in
  @processConfig Sample.rejecting s = Fatal msg
  ∧ @main Sample.rejecting s = Fatal msg.
Proof.
  apply (@parse_error_is_fatal Sample.rejecting
           (initial (Sample.cfg "cert.pem" "key.pem" 0 0 Sample.hosts))
           {| tls.Chain := [Sample.leafDER]; tls.Leaf := None |}
           Sample.leafDER "asn1: syntax error");
    [discriminate | discriminate | reflexivity | reflexivity | reflexivity].
Defined.

Lemma processConfig_keeps_config_witness :
  let c := Sample.cfg "" "" 0 0 Sample.hosts in
  let s' := processDefaultHost (initial c) in
  Config.Tls (config s') = Config.Tls c
  ∧ Config.Http (config s') = Config.Http c
  ∧ Config.Redirector (config s') = Config.Redirector c
  ∧ Config.Hosts (config s') = Config.Hosts c
  ∧ Config.DefaultHost (config s') = "localhost".
Proof.
  apply (@processConfig_keeps_config Sample.externals
           (initial (Sample.cfg "" "" 0 0 Sample.hosts))
           (processDefaultHost (initial (Sample.cfg "" "" 0 0 Sample.hosts)))).
  reflexivity.
Defined.

Lemma backup_key_warning_witness :
  let warning := "You should add a backup key to HPKP backup_keys!" +:+ newline in
  ∃ s', @processConfig Sample.externals (initial Sample.unbacked) = Done s'
        ∧ (60 ≠ 0 → @nil string = [] → logged s' = [] ++ [warning])
        ∧ (60 = 0 ∨ @nil string ≠ [] → logged s' = []).
Proof.
  apply (@backup_key_warning Sample.externals (initial Sample.unbacked)
           {| tls.Chain := [Sample.leafDER]; tls.Leaf := None |}
           Sample.leafDER
           {| x509.RawSubjectPublicKeyInfo := Sample.leafDER |});
    [discriminate | discriminate | reflexivity | reflexivity | reflexivity].
Defined.

Lemma zero_duration_keeps_header_witness :
  ∃ s', @processConfig Sample.externals (initial Sample.unbacked) = Done s'
        ∧ (0 = 0 → hstsHeader s' = "")
        ∧ (60 = 0 → hpkpHeader s' = "").
Proof.
  apply (@zero_duration_keeps_header Sample.externals
           (initial Sample.unbacked)
           {| tls.Chain := [Sample.leafDER]; tls.Leaf := None |}
           Sample.leafDER
           {| x509.RawSubjectPublicKeyInfo := Sample.leafDER |});
    [discriminate | discriminate | reflexivity | reflexivity | reflexivity].
Defined.

Lemma negative_duration_in_header_witness :
  ∃ s', @processConfig Sample.externals
          (initial (Sample.cfg "cert.pem" "key.pem" (-300) 0 Sample.hosts))
        = Done s'
        ∧ hstsHeader s' = "max-age=-300; includeSubdomains".
Proof.
  apply (@negative_duration_in_header Sample.externals
           (initial (Sample.cfg "cert.pem" "key.pem" (-300) 0 Sample.hosts))
           {| tls.Chain := [Sample.leafDER]; tls.Leaf := None |}
           Sample.leafDER
           {| x509.RawSubjectPublicKeyInfo := Sample.leafDER |});
    [discriminate | discriminate | reflexivity | reflexivity | reflexivity
     | reflexivity].
Defined.

Lemma tls_serves_loaded_chain_witness :
  ∃ s', @processConfig Sample.externals
          (initial (Sample.cfg "chain.pem" "key.pem" 0 0 Sample.hosts))
        = Done s'
        ∧ @tlsTask Sample.externals s'
          = Serve "TLS server" ":443" (@secHandler Sample.externals s')
              (TlsDemuxListener "127.0.0.1:22"
                 [{| tls.Chain := [Sample.leafDER; Sample.caDER];
                     tls.Leaf :=
                       Some {| x509.RawSubjectPublicKeyInfo := Sample.caDER |}
                  |}]).
Proof.
  apply (@tls_serves_loaded_chain Sample.externals
           (initial (Sample.cfg "chain.pem" "key.pem" 0 0 Sample.hosts))
           {| tls.Chain := [Sample.leafDER; Sample.caDER]; tls.Leaf := None |}
           Sample.caDER
           {| x509.RawSubjectPublicKeyInfo := Sample.caDER |});
    [discriminate | discriminate | discriminate | reflexivity | reflexivity
     | reflexivity].
Defined.

Lemma tls_handler_leaves_other_headers_witness :
  let s := set_hstsHeader "max-age=1"
             (initial (Sample.cfg "cert.pem" "key.pem" 1 0 Sample.hosts)) in
  let w := http.AddHeader "Server" "443d" http.fresh in
  http.Header_Values
    (http.Header (@secHandler Sample.externals s w
                              (Sample.get "example.com" "/")))
    "Server"
  = http.Header_Values (http.Header w) "Server".
Proof.
  apply (@tls_handler_leaves_other_headers Sample.externals
           (set_hstsHeader "max-age=1"
              (initial (Sample.cfg "cert.pem" "key.pem" 1 0 Sample.hosts)))
           "Server");
    [discriminate | discriminate | repeat constructor; apply hello_preserves].
Defined.

Lemma hpkp_sent_iff_nonzero_witness :
  let s := set_hpkpHeader "pins"
             (initial (Sample.cfg "cert.pem" "key.pem" 0 (-1) Sample.hosts)) in
  let sent :=
    http.Header_Values
      (http.Header (@secHandler Sample.externals s http.fresh
                                (Sample.get "example.com" "/")))
      "Public-Key-Pins" in
  (sent ≠ [] ↔ -1 ≠ 0) ∧ (-1 ≠ 0 → sent = ["pins"]) ∧ (-1 = 0 → sent = []).
Proof.
  apply (@hpkp_sent_iff_nonzero Sample.externals
           (set_hpkpHeader "pins"
              (initial (Sample.cfg "cert.pem" "key.pem" 0 (-1) Sample.hosts)))
           (Sample.get "example.com" "/")).
  repeat constructor; apply hello_preserves.
Defined.

Lemma main_endpoints_witness :
  ∃ redirector plain tlsEndpoint,
    [@redirectorTask Sample.externals
       (processDefaultHost (initial (Sample.cfg "" "" 0 0 Sample.hosts)));
     @httpTask Sample.externals
       (processDefaultHost (initial (Sample.cfg "" "" 0 0 Sample.hosts)));
     @tlsTask Sample.externals
       (processDefaultHost (initial (Sample.cfg "" "" 0 0 Sample.hosts)))]
    = [redirector; plain; tlsEndpoint]
    ∧ (skipped redirector = true ↔ ":8080" = "")
    ∧ (skipped plain = true ↔ ":80" = "")
    ∧ (skipped tlsEndpoint = true ↔ ":443" = "" ∨ ("" = "" ∧ "" = "")).
Proof.
  apply (@main_endpoints Sample.externals
           (initial (Sample.cfg "" "" 0 0 Sample.hosts))).
  reflexivity.
Defined.

Lemma pattern_order_irrelevant_witness :
  let s1 := initial (Sample.cfg "" "" 0 0 [Sample.example; Sample.local]) in
  let s2 := initial (Sample.cfg "" "" 0 0 [Sample.example'; Sample.local]) in
  let r := Sample.get "www.example.com" "/" in
  @httpHandler Sample.externals s1 http.fresh r
  = @httpHandler Sample.externals s2 http.fresh r.
Proof.
  apply (@pattern_order_irrelevant Sample.externals
           (initial (Sample.cfg "" "" 0 0 [Sample.example; Sample.local]))
           (initial (Sample.cfg "" "" 0 0 [Sample.example'; Sample.local]))
           http.fresh (Sample.get "www.example.com" "/")).
  - reflexivity.
  - repeat constructor.
Defined.

Section Edges.

Context `{Externals}.

(** X17.  With a chain of exactly one certificate the element the program
    parses is the leaf, and the primary pin is the digest of the leaf's
    public-key-info bytes. *)
Theorem single_certificate_pins_leaf (s : State) (kp : tls.Certificate)
        (der : bytes) (leaf : x509.Certificate) :
  let tlsc := Config.Tls (config s) in
  Tls.Cert tlsc ≠ "" →
  Tls.Key tlsc ≠ "" →
  tls_LoadX509KeyPair (Tls.Cert tlsc) (Tls.Key tlsc) = Ok kp →
  tls.Chain kp = [der] →
  x509_ParseCertificate der = Ok leaf →
  Hpkp.Seconds (Tls.Hpkp tlsc) ≠ 0 →
  ∃ s', processConfig s = Done s'
        ∧ tls.leafDER kp = Some der
        ∧ tls.Leaf (tlsKeyPair s') = Some leaf
        ∧ hpkpHeader s'
          = hpkpValue
              (base64_EncodeToString
                 (sha256_Sum256 (x509.RawSubjectPublicKeyInfo leaf)))
              (Hpkp.BackupKeys (Tls.Hpkp tlsc))
              (Hpkp.Seconds (Tls.Hpkp tlsc))
              (Hpkp.Subdomains (Tls.Hpkp tlsc)).
Proof.
  intros tlsc Hcert Hkey Hload Hchain Hparse Hnz.
  assert (last (tls.Chain kp) = Some der) as Hlast by (by rewrite Hchain).
  eexists. split; [by eapply processConfig_tls|]. split; [|split].
  - unfold tls.leafDER. by rewrite Hchain.
  - by rewrite processHpkp_tlsKeyPair, processHsts_tlsKeyPair.
  - rewrite processHpkp_hpkpHeader; rewrite processHsts_config;
      cbn [config set_tlsKeyPair]; by rewrite processDefaultHost_Tls.
Qed.

(** X18.  The redirector does not fall back on the default host name: for
    a request without a host the target is [https://] followed directly
    by the request-URI, its non-ASCII bytes percent-escaped. *)
Theorem redirect_without_host (w : http.ResponseWriter) (r : http.Request) :
  http.status w = None →
  http.Host r = "" →
  http.status (redirHandler w r) = Some 301
  ∧ http.Header_Values (http.Header (redirHandler w r)) "Location"
    = ["https://" +:+ hexEscapeNonASCII (http.RequestURI r)].
Proof.
  intros Hnew Hhost. split; [by apply redirHandler_status|].
  rewrite redirHandler_Location, Hhost, !hexEscapeNonASCII_app.
  reflexivity.
Qed.

End Edges.

Lemma processConfig_Leaf_witness :
  ∃ der leaf,
    last [Sample.leafDER; Sample.caDER] = Some der
    ∧ @x509_ParseCertificate Sample.externals der = Ok leaf
    ∧ Some {| x509.RawSubjectPublicKeyInfo := Sample.caDER |} = Some leaf.
Proof.
  apply (@processConfig_Leaf Sample.externals
           (initial (Sample.cfg "chain.pem" "key.pem" 0 0 Sample.hosts))
           (set_tlsKeyPair
              {| tls.Chain := [Sample.leafDER; Sample.caDER];
                 tls.Leaf :=
                   Some {| x509.RawSubjectPublicKeyInfo := Sample.caDER |} |}
              (processDefaultHost
                 (initial (Sample.cfg "chain.pem" "key.pem" 0 0 Sample.hosts))))
           {| tls.Chain := [Sample.leafDER; Sample.caDER];
              tls.Leaf := None |});
    [discriminate | discriminate | reflexivity | reflexivity].
Defined.

Lemma single_certificate_pins_leaf_witness :
  ∃ s', @processConfig Sample.externals (initial Sample.unbacked) = Done s'
        ∧ Some Sample.leafDER = Some Sample.leafDER
        ∧ tls.Leaf (tlsKeyPair s')
          = Some {| x509.RawSubjectPublicKeyInfo := Sample.leafDER |}
        ∧ hpkpHeader s' = hpkpValue "ABC=" [] 60 false.
Proof.
  apply (@single_certificate_pins_leaf Sample.externals
           (initial Sample.unbacked)
           {| tls.Chain := [Sample.leafDER]; tls.Leaf := None |}
           Sample.leafDER
           {| x509.RawSubjectPublicKeyInfo := Sample.leafDER |});
    [discriminate | discriminate | reflexivity | reflexivity | reflexivity
     | discriminate].
Defined.

Lemma redirect_without_host_witness :
  let w := @redirHandler Sample.externals http.fresh (Sample.get "" "/a?b=c") in
  http.status w = Some 301
  ∧ http.Header_Values (http.Header w) "Location" = ["https:///a?b=c"].
Proof.
  apply (@redirect_without_host Sample.externals http.fresh
           (Sample.get "" "/a?b=c"));
    reflexivity.
Defined.
